(** * Bank-account exercises: [Desafio_02.py] and [desadio.py]

    A shallow embedding of the two console programs and the properties
    of their withdrawal / deposit logic.

    Python is dynamically typed: the amount handed to [sacar] and
    [depositar] only has to support [<=], [>], [+] and [-].  The embedding
    therefore keeps the amount type abstract behind the class [PyNum] and
    gives the two instances that occur in practice: Python [int]
    (unbounded, exact: [Z]) and Python [float] (IEEE-754 binary64, which is
    what [float(input(...))] produces in both programs). *)

From Stdlib Require Import ZArith String Ascii List Bool Lia.
From Stdlib Require Import Floats Numbers.Cyclic.Int63.Uint63.
Import ListNotations.

Local Open Scope string_scope.
Local Open Scope Z_scope.

(** ** Numbers as Python sees them *)

Class PyNum (A : Type) : Type := {
  de_int : Z -> A;                (* an [int] literal used as an amount *)
  soma : A -> A -> A;             (* [x + y] *)
  subtrai : A -> A -> A;          (* [x - y] *)
  menor_igual : A -> A -> bool;   (* [x <= y] *)
  maior : A -> A -> bool          (* [x > y] *)
}.

Declare Scope py_scope.
Delimit Scope py_scope with py.
Infix "+" := soma : py_scope.
Infix "-" := subtrai : py_scope.
Infix "<=?" := menor_igual : py_scope.
Infix ">?" := maior : py_scope.

(** Python [int]. *)
#[export] Instance PyNum_int : PyNum Z := {|
  de_int := fun z => z;
  soma := Z.add;
  subtrai := Z.sub;
  menor_igual := Z.leb;
  maior := Z.gtb
|}.

(** Python [float]: binary64 with round-to-nearest-even; every comparison
    with a NaN is false, so [x > y] is not the negation of [x <= y]. *)
Definition float_de_int (z : Z) : float :=
  match z with
  | Z0 => PrimFloat.zero
  | Zpos _ => PrimFloat.of_uint63 (Uint63.of_Z z)
  | Zneg p => PrimFloat.opp (PrimFloat.of_uint63 (Uint63.of_Z (Zpos p)))
  end.

#[export] Instance PyNum_float : PyNum float := {|
  de_int := float_de_int;
  soma := PrimFloat.add;
  subtrai := PrimFloat.sub;
  menor_igual := PrimFloat.leb;
  maior := fun x y => PrimFloat.ltb y x
|}.

(** [x] is not negative: the Python test [x < 0], which [int] and [float]
    both evaluate as [0 > x], is false.  On [int] this is [0 <= x]; a
    [float] NaN is not negative either. *)
Definition nao_negativo {A : Type} `{PyNum A} (x : A) : Prop :=
  (de_int 0 >? x)%py = false.

(** The facts about order and sign the balance arguments rest on.  They
    do not mention exactness: both [int] and [float] have them
    ([PyNumOrdenado_int] and [PyNumOrdenado_float] below). *)
Class PyNumOrdenado (A : Type) `{PyNum A} : Prop := {
  zero_nao_negativo : nao_negativo (de_int 0);
  soma_nao_negativa : forall s v : A,
    nao_negativo s -> (v <=? de_int 0)%py = false ->
    nao_negativo (s + v)%py;
  subtrai_nao_negativa : forall s v : A,
    nao_negativo s -> (v <=? de_int 0)%py = false -> (v >? s)%py = false ->
    nao_negativo (s - v)%py;
  maior_que_nao_negativo : forall s v : A,
    nao_negativo s -> (v >? s)%py = true -> (v <=? de_int 0)%py = false
}.

(** Vocabulary for the binary64 instance, on the specification floats of
    the Standard Library. *)

(** Sign of a specification float: [sinal_de b x] when [x] is a NaN or
    carries the sign [b]. *)
Definition sinal_de (b : bool) (x : spec_float) : Prop :=
  match x with
  | S754_nan => True
  | S754_zero s | S754_infinity s | S754_finite s _ _ => s = b
  end.

(** A specification float that is not below zero: a NaN, a zero of either
    sign, or a positive number or infinity. *)
Definition sf_nao_negativo (x : spec_float) : Prop :=
  match x with
  | S754_infinity true | S754_finite true _ _ => False
  | _ => True
  end.

(** What [x <= 0] being false leaves: a NaN or something positive. *)
Definition sf_positivo_ou_nan (x : spec_float) : Prop :=
  match x with
  | S754_nan | S754_infinity false | S754_finite false _ _ => True
  | _ => False
  end.

(** ** Effects

    Every operation of the programs mutates its receiver and writes to
    standard output; the interactive shells also read lines and can die
    with an exception.  [Prog] threads a state through the calls, [Shell]
    adds the exception. *)

Definition nl : string := String (ascii_of_nat 10) EmptyString.

Inductive Excecao : Type :=
| NameError (nome : string)
| ValueError (texto : string)
| EOFError
| EnderecoInvalido (endereco : nat).

Inductive Resultado (R : Type) : Type :=
| Ok (r : R)
| Levanta (e : Excecao).

Arguments Ok {R} r.
Arguments Levanta {R} e.

Section Monad.
Context {W : Type}.

Definition Prog (R : Type) : Type := W -> R * W.

Definition ret {R} (r : R) : Prog R := fun w => (r, w).

Definition bind {R S} (m : Prog R) (k : R -> Prog S) : Prog S :=
  fun w => k (fst (m w)) (snd (m w)).

Definition Shell (R : Type) : Type := W -> Resultado R * W.

Definition ret_s {R} (r : R) : Shell R := fun w => (Ok r, w).

Definition bind_s {R S} (m : Shell R) (k : R -> Shell S) : Shell S :=
  fun w =>
    match m w with
    | (Ok r, w') => k r w'
    | (Levanta e, w') => (Levanta e, w')
    end.

Definition levantar {R} (e : Excecao) : Shell R := fun w => (Levanta e, w).
End Monad.

Arguments Prog : clear implicits.
Arguments Shell : clear implicits.

Declare Scope prog_scope.
Delimit Scope prog_scope with prog.
Notation "x <- m ;; k" := (bind m (fun x => k))
  (at level 61, m at next level, right associativity) : prog_scope.
Notation "m ;;; k" := (bind m (fun _ => k))
  (at level 61, right associativity) : prog_scope.

Declare Scope shell_scope.
Delimit Scope shell_scope with shell.
Notation "x <- m ;; k" := (bind_s m (fun x => k))
  (at level 61, m at next level, right associativity) : shell_scope.
Notation "m ;;; k" := (bind_s m (fun _ => k))
  (at level 61, right associativity) : shell_scope.

(** * The object-oriented program, [Desafio_02.py] *)

Module Desafio_02.

Section Modelo.
Context {A : Type} `{PyNum A}.
Local Open Scope py_scope.
Local Open Scope prog_scope.

(** An entry of [Historico._transacoes]: the dict with keys ["tipo"],
    ["valor"] and ["data"]. *)
Record Registro : Type := mkRegistro {
  tipo : string;
  valor_reg : A;
  data : string
}.

Record Historico : Type := mkHistorico {
  transacoes : list Registro
}.

(** The attributes [ContaCorrente.__init__] adds to those of [Conta]. *)
Record Corrente : Type := mkCorrente {
  limite : A;
  limite_saques : nat
}.

(** The dynamic class of an account object.  [limite_saques] is a number of
    withdrawals and is compared with a count of records: a natural
    number. *)
Inductive Classe : Type :=
| ClasseConta
| ClasseContaCorrente (cc : Corrente).

(** An account object: the attributes set by [Conta.__init__] and its
    dynamic class.  [cliente] is the identity of the owning client. *)
Record Conta : Type := mkConta {
  classe : Classe;
  saldo : A;
  numero : Z;
  agencia : string;
  cliente : nat;
  historico : Historico
}.

(** The state a method runs in: the receiver, what was printed so far, and
    the clock read by [datetime.now()] ([agora n] is the formatted time of
    the [n]-th reading). *)
Record Mundo : Type := mkMundo {
  conta : Conta;
  stdout : list string;
  agora : nat -> string;
  tique : nat
}.

Definition print (s : string) : Prog Mundo unit :=
  fun w => (tt, mkMundo (conta w) (stdout w ++ [s]) (agora w) (tique w)).

Definition datetime_now : Prog Mundo string :=
  fun w => (agora w (tique w),
            mkMundo (conta w) (stdout w) (agora w) (S (tique w))).

Definition ler_saldo : Prog Mundo A := fun w => (saldo (conta w), w).

Definition gravar_saldo (s : A) : Prog Mundo unit :=
  fun w =>
    let c := conta w in
    (tt, mkMundo (mkConta (classe c) s (numero c) (agencia c) (cliente c)
                          (historico c))
                 (stdout w) (agora w) (tique w)).

Definition ler_transacoes : Prog Mundo (list Registro) :=
  fun w => (transacoes (historico (conta w)), w).

Definition anexar_transacao (r : Registro) : Prog Mundo unit :=
  fun w =>
    let c := conta w in
    (tt, mkMundo (mkConta (classe c) (saldo c) (numero c) (agencia c)
                          (cliente c)
                          (mkHistorico (transacoes (historico c) ++ [r])))
                 (stdout w) (agora w) (tique w)).

(** *** Constructors *)

Definition Historico_init : Historico := mkHistorico [].

Definition Conta_init (numero : Z) (cliente : nat) : Conta :=
  mkConta ClasseConta (de_int 0) numero "0001" cliente Historico_init.

Definition ContaCorrente_init (numero : Z) (cliente : nat)
           (limite : A) (limite_saques : nat) : Conta :=
  mkConta (ClasseContaCorrente (mkCorrente limite limite_saques))
          (de_int 0) numero "0001" cliente Historico_init.

(** The defaults of [ContaCorrente.__init__]. *)
Definition limite_padrao : A := de_int 500.
Definition limite_saques_padrao : nat := 3.

(** *** Messages *)

Definition msg_valor_invalido : string :=
  nl ++ "@@@ Operação falhou! O valor informado é inválido. @@@".
Definition msg_saldo_insuficiente : string :=
  nl ++ "@@@ Operação falhou! Saldo insuficiente. @@@".
Definition msg_saque_ok : string :=
  nl ++ "=== Saque realizado com sucesso! ===".
Definition msg_deposito_ok : string :=
  nl ++ "=== Depósito realizado com sucesso! ===".
Definition msg_excede_limite : string :=
  nl ++ "@@@ Operação falhou! O valor do saque excede o limite. @@@".
Definition msg_excede_saques : string :=
  nl ++ "@@@ Operação falhou! Número máximo de saques excedido. @@@".

(** *** [Conta.sacar] and [Conta.depositar] *)

Definition Conta_sacar (valor : A) : Prog Mundo bool :=
  if valor <=? de_int 0 then
    print msg_valor_invalido ;;; ret false
  else
    s <- ler_saldo ;;
    if valor >? s then
      print msg_saldo_insuficiente ;;; ret false
    else
      gravar_saldo (s - valor) ;;;
      print msg_saque_ok ;;;
      ret true.

Definition Conta_depositar (valor : A) : Prog Mundo bool :=
  if valor <=? de_int 0 then
    print msg_valor_invalido ;;; ret false
  else
    s <- ler_saldo ;;
    gravar_saldo (s + valor) ;;;
    print msg_deposito_ok ;;;
    ret true.

(** *** [ContaCorrente.sacar] *)

(** [sum(1 for t in self.historico.transacoes if t["tipo"] == "Saque")] *)
Fixpoint conta_saques (ts : list Registro) : nat :=
  match ts with
  | [] => O
  | t :: ts' =>
      if String.eqb (tipo t) "Saque" then S (conta_saques ts')
      else conta_saques ts'
  end.

Definition ContaCorrente_sacar (cc : Corrente) (valor : A)
  : Prog Mundo bool :=
  ts <- ler_transacoes ;;
  let numero_saques := conta_saques ts in
  if valor >? limite cc then
    print msg_excede_limite ;;; ret false
  else if (limite_saques cc <=? numero_saques)%nat then
    print msg_excede_saques ;;; ret false
  else
    Conta_sacar valor.

(** Method resolution for [conta.sacar(valor)] and [conta.depositar(valor)]:
    [ContaCorrente] overrides the first and inherits the second. *)
Definition sacar (valor : A) : Prog Mundo bool :=
  fun w =>
    match classe (conta w) with
    | ClasseConta => Conta_sacar valor w
    | ClasseContaCorrente cc => ContaCorrente_sacar cc valor w
    end.

Definition depositar (valor : A) : Prog Mundo bool := Conta_depositar valor.

(** *** Transactions *)

Inductive Transacao : Type :=
| Saque (valor : A)
| Deposito (valor : A).

Definition valor (t : Transacao) : A :=
  match t with Saque v => v | Deposito v => v end.

(** [transacao.__class__.__name__] *)
Definition nome_classe (t : Transacao) : string :=
  match t with Saque _ => "Saque" | Deposito _ => "Deposito" end.

(** [Historico.adicionar_transacao] *)
Definition adicionar_transacao (t : Transacao) : Prog Mundo unit :=
  d <- datetime_now ;;
  anexar_transacao (mkRegistro (nome_classe t) (valor t) d).

Definition Saque_registrar (v : A) : Prog Mundo unit :=
  ok <- sacar v ;;
  if ok then adicionar_transacao (Saque v) else ret tt.

Definition Deposito_registrar (v : A) : Prog Mundo unit :=
  ok <- depositar v ;;
  if ok then adicionar_transacao (Deposito v) else ret tt.

Definition registrar (t : Transacao) : Prog Mundo unit :=
  match t with
  | Saque v => Saque_registrar v
  | Deposito v => Deposito_registrar v
  end.

(** [Cliente.realizar_transacao] *)
Definition realizar_transacao (t : Transacao) : Prog Mundo unit :=
  registrar t.

(** *** Vocabulary for the properties *)

(** The call [registrar] makes on the account and whose result decides
    whether a record is written. *)
Definition operar (t : Transacao) : Prog Mundo bool :=
  match t with
  | Saque v => sacar v
  | Deposito v => depositar v
  end.

(** The record [registrar t] writes when it writes one in state [w]. *)
Definition registro_de (t : Transacao) (w : Mundo) : Registro :=
  mkRegistro (nome_classe t) (valor t) (agora w (tique w)).

(** A sequence of [registrar] calls on one account. *)
Fixpoint registrar_todas (ts : list Transacao) (w : Mundo) : Mundo :=
  match ts with
  | [] => w
  | t :: ts' => registrar_todas ts' (snd (registrar t w))
  end.

(** How many of those calls had their [sacar]/[depositar] return [True]. *)
Fixpoint sucessos (ts : list Transacao) (w : Mundo) : nat :=
  match ts with
  | [] => O
  | t :: ts' =>
      ((if fst (operar t w) then 1 else 0)
       + sucessos ts' (snd (registrar t w)))%nat
  end.

(** How many of them were withdrawals whose [sacar] returned [True]. *)
Fixpoint saques_bem_sucedidos (ts : list Transacao) (w : Mundo) : nat :=
  match ts with
  | [] => O
  | t :: ts' =>
      ((match t with
        | Saque v => if fst (sacar v w) then 1 else 0
        | Deposito _ => 0
        end)
       + saques_bem_sucedidos ts' (snd (registrar t w)))%nat
  end.

(** A direct call of one of the two balance methods. *)
Inductive Chamada : Type :=
| ChSacar (valor : A)
| ChDepositar (valor : A).

Definition chamar (c : Chamada) : Prog Mundo bool :=
  match c with
  | ChSacar v => sacar v
  | ChDepositar v => depositar v
  end.

Fixpoint chamar_todas (cs : list Chamada) (w : Mundo) : Mundo :=
  match cs with
  | [] => w
  | c :: cs' => chamar_todas cs' (snd (chamar c w))
  end.

(** What a refused call leaves behind: the account as it was and one more
    line on the console. *)
Definition recusa (msg : string) (w : Mundo) : bool * Mundo :=
  (false, mkMundo (conta w) (stdout w ++ [msg]) (agora w) (tique w)).

(** What an accepted call leaves behind: the same account with a new
    balance, and one more line on the console. *)
Definition aceita (s : A) (msg : string) (w : Mundo) : bool * Mundo :=
  (true,
   mkMundo (mkConta (classe (conta w)) s (numero (conta w))
                    (agencia (conta w)) (cliente (conta w))
                    (historico (conta w)))
           (stdout w ++ [msg]) (agora w) (tique w)).

Definition mundo_inicial (c : Conta) (relogio : nat -> string) : Mundo :=
  mkMundo c [] relogio O.

(** The states an account can be in: created by one of the two
    constructors, then used through [sacar], [depositar] and [registrar]. *)
Inductive alcancavel : Mundo -> Prop :=
| alc_Conta (numero : Z) (cliente : nat) (relogio : nat -> string) :
    alcancavel (mundo_inicial (Conta_init numero cliente) relogio)
| alc_ContaCorrente (numero : Z) (cliente : nat) (limite : A)
                    (limite_saques : nat) (relogio : nat -> string) :
    alcancavel
      (mundo_inicial (ContaCorrente_init numero cliente limite limite_saques)
                     relogio)
| alc_sacar (w : Mundo) (v : A) :
    alcancavel w -> alcancavel (snd (sacar v w))
| alc_depositar (w : Mundo) (v : A) :
    alcancavel w -> alcancavel (snd (depositar v w))
| alc_registrar (w : Mundo) (t : Transacao) :
    alcancavel w -> alcancavel (snd (registrar t w)).

End Modelo.

Arguments Registro : clear implicits.
Arguments Historico : clear implicits.
Arguments Corrente : clear implicits.
Arguments Classe : clear implicits.
Arguments Conta : clear implicits.
Arguments Mundo : clear implicits.
Arguments Transacao : clear implicits.
Arguments Chamada : clear implicits.

(** ** The interactive shell of [Desafio_02.py]

    Clients and accounts are objects: an account is shared between the
    [contas] list of its client and the [contas] list of [main], so the
    accounts live in a store and the lists hold addresses. *)

Section Concha.
Context {A : Type} `{PyNum A}.
(** The builtins [float(...)] ([None] is [ValueError]) and the format
    specification [:.2f]. *)
Variable float_de_str : string -> option A.
Variable formato_2f : A -> string.
Local Open Scope shell_scope.

Record PessoaFisica : Type := mkPessoaFisica {
  endereco : string;
  contas : list nat;
  nome : string;
  data_nascimento : string;
  cpf : string
}.

(** The locals of [main], the object store and the console. *)
Record Estado : Type := mkEstado {
  main_clientes : list PessoaFisica;
  main_contas : list nat;
  objetos : list (Conta A);
  entrada : list string;
  saida : list string;
  relogio : nat -> string;
  leituras : nat
}.

Definition imprimir (s : string) : Shell Estado unit :=
  fun e => (Ok tt,
            mkEstado (main_clientes e) (main_contas e) (objetos e)
                     (entrada e) (saida e ++ [s]) (relogio e) (leituras e)).

(** [input(prompt)]: writes the prompt, then reads one line. *)
Definition input (prompt : string) : Shell Estado string :=
  fun e =>
    match entrada e with
    | [] =>
        (Levanta EOFError,
         mkEstado (main_clientes e) (main_contas e) (objetos e)
                  [] (saida e ++ [prompt]) (relogio e) (leituras e))
    | linha :: resto =>
        (Ok linha,
         mkEstado (main_clientes e) (main_contas e) (objetos e)
                  resto (saida e ++ [prompt]) (relogio e) (leituras e))
    end.

Definition float_ (s : string) : Shell Estado A :=
  match float_de_str s with
  | Some v => ret_s v
  | None => levantar (ValueError s)
  end.

Fixpoint substituir {X} (n : nat) (x : X) (l : list X) : list X :=
  match l, n with
  | [], _ => []
  | _ :: l', O => x :: l'
  | y :: l', S n' => y :: substituir n' x l'
  end.

(** Runs a method on the account stored at [a]; the console and the clock
    are those of the shell.  [EnderecoInvalido] is not a Python exception:
    it stands for an address outside the store, which no list of the
    program can hold. *)
Definition na_conta {R} (a : nat) (m : Prog (Mundo A) R) : Shell Estado R :=
  fun e =>
    match nth_error (objetos e) a with
    | None => (Levanta (EnderecoInvalido a), e)
    | Some c =>
        let r := m (mkMundo c (saida e) (relogio e) (leituras e)) in
        (Ok (fst r),
         mkEstado (main_clientes e) (main_contas e)
                  (substituir a (conta (snd r)) (objetos e))
                  (entrada e) (stdout (snd r)) (agora (snd r))
                  (tique (snd r)))
    end.

Definition menu_text : string :=
  nl ++ nl ++
  "================ MENU ================" ++ nl ++
  "[d]  Depositar" ++ nl ++
  "[s]  Sacar" ++ nl ++
  "[e]  Extrato" ++ nl ++
  "[nc] Nova conta" ++ nl ++
  "[lc] Listar contas" ++ nl ++
  "[nu] Novo usuário" ++ nl ++
  "[q]  Sair" ++ nl ++
  "=> ".

Definition mostrar_menu : Shell Estado string := input menu_text.

(** The state after the menu prompt was written and one line was read. *)
Definition apos_menu (e : Estado) (resto : list string) : Estado :=
  mkEstado (main_clientes e) (main_contas e) (objetos e) resto
           (saida e ++ [menu_text])%list (relogio e) (leituras e).

Definition buscar_cliente_por_cpf (c : string) (clientes : list PessoaFisica)
  : option PessoaFisica :=
  find (fun cliente => String.eqb (cpf cliente) c) clientes.

Definition recuperar_primeira_conta (cliente : PessoaFisica)
  : Shell Estado (option nat) :=
  match contas cliente with
  | [] => imprimir (nl ++ "@@@ Cliente não possui conta! @@@") ;;;
          ret_s None
  | a :: _ => ret_s (Some a)
  end.

Definition msg_cliente_nao_encontrado : string :=
  nl ++ "@@@ Cliente não encontrado! @@@".

Definition processar_deposito : Shell Estado unit :=
  c <- input "Informe o CPF do cliente: " ;;
  clientes <- (fun e => (Ok (main_clientes e), e)) ;;
  match buscar_cliente_por_cpf c clientes with
  | None => imprimir msg_cliente_nao_encontrado
  | Some cliente =>
      s <- input "Informe o valor do depósito: " ;;
      valor <- float_ s ;;
      conta <- recuperar_primeira_conta cliente ;;
      match conta with
      | Some a => na_conta a (realizar_transacao (Deposito valor))
      | None => ret_s tt
      end
  end.

Definition processar_saque : Shell Estado unit :=
  c <- input "Informe o CPF do cliente: " ;;
  clientes <- (fun e => (Ok (main_clientes e), e)) ;;
  match buscar_cliente_por_cpf c clientes with
  | None => imprimir msg_cliente_nao_encontrado
  | Some cliente =>
      s <- input "Informe o valor do saque: " ;;
      valor <- float_ s ;;
      conta <- recuperar_primeira_conta cliente ;;
      match conta with
      | Some a => na_conta a (realizar_transacao (Saque valor))
      | None => ret_s tt
      end
  end.

Fixpoint imprimir_transacoes (ts : list (Registro A)) : Shell Estado unit :=
  match ts with
  | [] => ret_s tt
  | t :: ts' =>
      imprimir (tipo t ++ ": R$ " ++ formato_2f (valor_reg t) ++ " em "
                ++ data t) ;;;
      imprimir_transacoes ts'
  end.

Definition exibir_extrato : Shell Estado unit :=
  c <- input "Informe o CPF do cliente: " ;;
  clientes <- (fun e => (Ok (main_clientes e), e)) ;;
  match buscar_cliente_por_cpf c clientes with
  | None => imprimir msg_cliente_nao_encontrado
  | Some cliente =>
      conta <- recuperar_primeira_conta cliente ;;
      match conta with
      | None => ret_s tt
      | Some a =>
          imprimir (nl ++ "================ EXTRATO ================") ;;;
          ts <- na_conta a ler_transacoes ;;
          match ts with
          | [] => imprimir "Nenhuma movimentação registrada."
          | _ :: _ => imprimir_transacoes ts
          end ;;;
          s <- na_conta a ler_saldo ;;
          imprimir (nl ++ "Saldo: R$ " ++ formato_2f s) ;;;
          imprimir "=========================================="
      end
  end.

(** *** Global names

    A call [f(clientes)] inside [main] looks [f] up in the module's globals
    when the call is executed.  These are the command handlers the module
    defines; the module imports only [textwrap], [abc] and [datetime], so a
    handler name that is not among them is unbound and the call raises
    [NameError]. *)
Definition funcoes_do_modulo : list (string * Shell Estado unit) :=
  [ ("processar_deposito", processar_deposito);
    ("processar_saque", processar_saque);
    ("exibir_extrato", exibir_extrato) ].

Fixpoint procurar {X} (n : string) (l : list (string * X)) : option X :=
  match l with
  | [] => None
  | (k, x) :: l' => if String.eqb k n then Some x else procurar n l'
  end.

Definition chamar_global (n : string) : Shell Estado unit :=
  match procurar n funcoes_do_modulo with
  | Some f => f
  | None => levantar (NameError n)
  end.

(** One iteration of the [while True] loop of [main]: [true] when the loop
    goes on, [false] after [break].  In the "nc" branch the assignment
    [numero_conta = len(contas) + 1] comes first and changes nothing but a
    local that only the call would read. *)
Definition main_iteracao : Shell Estado bool :=
  opcao <- mostrar_menu ;;
  if String.eqb opcao "d" then
    chamar_global "processar_deposito" ;;; ret_s true
  else if String.eqb opcao "s" then
    chamar_global "processar_saque" ;;; ret_s true
  else if String.eqb opcao "e" then
    chamar_global "exibir_extrato" ;;; ret_s true
  else if String.eqb opcao "nu" then
    chamar_global "criar_cliente" ;;; ret_s true
  else if String.eqb opcao "nc" then
    chamar_global "criar_conta" ;;; ret_s true
  else if String.eqb opcao "lc" then
    chamar_global "listar_contas" ;;; ret_s true
  else if String.eqb opcao "q" then
    ret_s false
  else
    imprimir (nl ++ "@@@ Opção inválida! Tente novamente. @@@") ;;;
    ret_s true.

(** The loop, for at most [n] iterations ([None]: still running). *)
Fixpoint main_laco (n : nat) (e : Estado)
  : option (Resultado unit) * Estado :=
  match n with
  | O => (None, e)
  | S n' =>
      match main_iteracao e with
      | (Ok true, e') => main_laco n' e'
      | (Ok false, e') => (Some (Ok tt), e')
      | (Levanta x, e') => (Some (Levanta x), e')
      end
  end.

(** [main()]: both lists start empty. *)
Definition main (n : nat) (linhas : list string) (clock : nat -> string)
  : option (Resultado unit) * Estado :=
  main_laco n (mkEstado [] [] [] linhas [] clock O).

End Concha.

Arguments Estado : clear implicits.

End Desafio_02.

(** * The procedural program, [desadio.py] *)

Module desadio.

Section Programa.
Context {A : Type} `{PyNum A}.
(** The builtins [float(...)] ([None] is [ValueError]) and the format
    specification [:.2f]. *)
Variable float_de_str : string -> option A.
Variable formato_2f : A -> string.
Local Open Scope py_scope.
Local Open Scope shell_scope.

Record Console : Type := mkConsole {
  entrada : list string;
  saida : list string
}.

Definition print (s : string) : Shell Console unit :=
  fun c => (Ok tt, mkConsole (entrada c) (saida c ++ [s])).

Definition input (prompt : string) : Shell Console string :=
  fun c =>
    match entrada c with
    | [] => (Levanta EOFError, mkConsole [] (saida c ++ [prompt]))
    | linha :: resto => (Ok linha, mkConsole resto (saida c ++ [prompt]))
    end.

Definition float_ (s : string) : Shell Console A :=
  match float_de_str s with
  | Some v => ret_s v
  | None => levantar (ValueError s)
  end.

Definition menu : string :=
  nl ++
  "    ================= MENU =================" ++ nl ++
  "    [1] Depositar" ++ nl ++
  "    [2] Sacar" ++ nl ++
  "    [3] Extrato" ++ nl ++
  "    [0] Sair" ++ nl ++
  "    ========================================" ++ nl ++
  "    => ".

Definition exibir_menu : Shell Console string := input menu.

Definition msg_deposito_ok : string := "Depósito realizado com sucesso!".
Definition msg_valor_invalido : string :=
  "Operação falhou! O valor informado é inválido.".
Definition msg_saldo_insuficiente : string :=
  "Operação falhou! Saldo insuficiente.".
Definition msg_excede_limite : string :=
  "Operação falhou! O valor do saque excede o limite.".
Definition msg_excede_saques : string :=
  "Operação falhou! Número máximo de saques excedido.".
Definition msg_saque_ok : string := "Saque realizado com sucesso!".

Definition depositar (saldo : A) (extrato : string)
  : Shell Console (A * string) :=
  s <- input "Informe o valor do depósito: " ;;
  valor <- float_ s ;;
  if valor >? de_int 0 then
    print msg_deposito_ok ;;;
    ret_s (saldo + valor,
           (extrato ++ "Depósito: R$ " ++ formato_2f valor ++ nl)%string)
  else
    print msg_valor_invalido ;;;
    ret_s (saldo, extrato).

Definition sacar (saldo : A) (extrato : string) (numero_saques : nat)
           (limite : A) (LIMITE_SAQUES : nat)
  : Shell Console (A * string * nat) :=
  s <- input "Informe o valor do saque: " ;;
  valor <- float_ s ;;
  let excedeu_saldo := valor >? saldo in
  let excedeu_limite := valor >? limite in
  let excedeu_saques := (LIMITE_SAQUES <=? numero_saques)%nat in
  if excedeu_saldo then
    print msg_saldo_insuficiente ;;;
    ret_s (saldo, extrato, numero_saques)
  else if excedeu_limite then
    print msg_excede_limite ;;;
    ret_s (saldo, extrato, numero_saques)
  else if excedeu_saques then
    print msg_excede_saques ;;;
    ret_s (saldo, extrato, numero_saques)
  else if valor >? de_int 0 then
    print msg_saque_ok ;;;
    ret_s (saldo - valor,
           (extrato ++ "Saque: R$ " ++ formato_2f valor ++ nl)%string,
           S numero_saques)
  else
    print msg_valor_invalido ;;;
    ret_s (saldo, extrato, numero_saques).

Definition exibir_extrato (saldo : A) (extrato : string)
  : Shell Console unit :=
  print (nl ++ "================ EXTRATO ================") ;;;
  print (if String.eqb extrato EmptyString
         then "Não foram realizadas movimentações."
         else extrato) ;;;
  print (nl ++ "Saldo atual: R$ " ++ formato_2f saldo) ;;;
  print "==========================================".

(** The locals of [main] that survive an iteration; the two withdrawal
    counters are natural numbers. *)
Record Locais : Type := mkLocais {
  saldo : A;
  limite : A;
  extrato : string;
  numero_saques : nat;
  LIMITE_SAQUES : nat
}.

Definition locais_iniciais : Locais :=
  mkLocais (de_int 0) (de_int 500) EmptyString 0%nat 3%nat.

(** One iteration of the loop: the new locals, or [None] after [break]. *)
Definition main_iteracao (l : Locais) : Shell Console (option Locais) :=
  opcao <- exibir_menu ;;
  if String.eqb opcao "1" then
    r <- depositar (saldo l) (extrato l) ;;
    ret_s (Some (mkLocais (fst r) (limite l) (snd r) (numero_saques l)
                          (LIMITE_SAQUES l)))
  else if String.eqb opcao "2" then
    r <- sacar (saldo l) (extrato l) (numero_saques l) (limite l)
               (LIMITE_SAQUES l) ;;
    ret_s (Some (mkLocais (fst (fst r)) (limite l) (snd (fst r)) (snd r)
                          (LIMITE_SAQUES l)))
  else if String.eqb opcao "3" then
    exibir_extrato (saldo l) (extrato l) ;;; ret_s (Some l)
  else if String.eqb opcao "0" then
    print "Encerrando o sistema. Até mais!" ;;; ret_s None
  else
    print "Opção inválida. Tente novamente." ;;; ret_s (Some l).

Fixpoint main_laco (n : nat) (l : Locais) (c : Console)
  : option (Resultado unit) * Console :=
  match n with
  | O => (None, c)
  | S n' =>
      match main_iteracao l c with
      | (Ok (Some l'), c') => main_laco n' l' c'
      | (Ok None, c') => (Some (Ok tt), c')
      | (Levanta x, c') => (Some (Levanta x), c')
      end
  end.

Definition main (n : nat) (linhas : list string)
  : option (Resultado unit) * Console :=
  main_laco n locais_iniciais (mkConsole linhas []).

End Programa.

Arguments Console : clear implicits.
Arguments Locais : clear implicits.

End desadio.

(** * Concrete inputs for the examples *)

Import Desafio_02.

Definition relogio_parado : nat -> string := fun _ => "01-01-2024 00:00:00".

(** [float("0.1")] and [float("0.2")]: the binary64 numbers nearest to one
    tenth and to two tenths. *)
Definition um_decimo : float := 0x1.999999999999ap-4%float.
Definition dois_decimos : float := 0x1.999999999999ap-3%float.

(** A base account with [int] amounts and balance 100. *)
Definition conta_de_100 : Mundo Z :=
  mkMundo (mkConta ClasseConta 100 1 "0001" O Historico_init) []
          relogio_parado O.

(** A new [ContaCorrente] with the default limits, [int] amounts. *)
Definition corrente_padrao : Corrente Z :=
  mkCorrente limite_padrao limite_saques_padrao.

Definition corrente_nova : Mundo Z :=
  mundo_inicial (ContaCorrente_init 1 O limite_padrao limite_saques_padrao)
                relogio_parado.

(** A new base account with [float] amounts; the same after
    [depositar(0.1)]; then after [depositar(0.2)]; then after
    [sacar(0.2)]. *)
Definition conta_float_nova : Mundo float :=
  mundo_inicial (Conta_init 1 O) relogio_parado.

Definition conta_float_0 : Mundo float :=
  snd (depositar um_decimo conta_float_nova).



(** A [float(...)] that reads every line as 600, for the examples on
    [int]. *)
Definition le_600 : string -> option Z := fun _ => Some 600.

Definition sem_formato : Z -> string := fun _ => EmptyString.

(** * Further vocabulary

    What the properties of the remaining functions are stated with. *)

Section Vocabulario.
Context {A : Type} `{PyNum A}.
Variable float_de_str : string -> option A.
Variable formato_2f : A -> string.
Local Open Scope list_scope.
Local Open Scope py_scope.

(** [Cliente.adicionar_conta]: [self.contas.append(conta)], on the client
    the caller holds. *)
Definition adicionar_conta (cliente : PessoaFisica) (conta : nat)
  : PessoaFisica :=
  mkPessoaFisica (endereco cliente) (contas cliente ++ [conta])
                 (nome cliente) (data_nascimento cliente) (cpf cliente).

(** One record of a history replayed on a balance, and a whole history
    replayed in order. *)
Definition aplicar_registro (s : A) (r : Registro A) : A :=
  if String.eqb (tipo r) "Saque" then s - valor_reg r else s + valor_reg r.

Definition reproduzir (h : list (Registro A)) (s : A) : A :=
  fold_left aplicar_registro h s.

(** The prompts of the three command handlers. *)
Definition prompt_cpf : string := "Informe o CPF do cliente: ".
Definition prompt_deposito : string := "Informe o valor do depósito: ".
Definition prompt_saque : string := "Informe o valor do saque: ".
Definition msg_sem_conta : string := nl ++ "@@@ Cliente não possui conta! @@@".

(** A shell state with the same clients, accounts, store and clock as [e],
    [resto] left to read and [novas] written after what [e] had written. *)
Definition com_console (e : Estado A) (resto novas : list string)
  : Estado A :=
  mkEstado (main_clientes e) (main_contas e) (objetos e) resto
           (saida e ++ novas) (relogio e) (leituras e).

(** Two shell states that hold the same bank: clients, account lists,
    store and clock. *)
Definition mesmo_banco (e e' : Estado A) : Prop :=
  main_clientes e' = main_clientes e /\
  main_contas e' = main_contas e /\
  objetos e' = objetos e /\
  relogio e' = relogio e /\
  leituras e' = leituras e.

(** The state a handler runs a method of account [c] in, after it wrote
    [novas]. *)
Definition mundo_da_conta (e : Estado A) (c : Conta A) (novas : list string)
  : Mundo A :=
  mkMundo c (saida e ++ novas) (relogio e) (leituras e).

(** A shell computation that touches nothing but the console. *)
Definition so_console {R : Type} (m : Shell (Estado A) R) : Prop :=
  forall e : Estado A, mesmo_banco e (snd (m e)).

(** Two shell states with the same clients, the same account list and as
    many stored accounts. *)
Definition mesma_estrutura (e e' : Estado A) : Prop :=
  main_clientes e' = main_clientes e /\
  main_contas e' = main_contas e /\
  length (objetos e') = length (objetos e).

(** [e'] is [e] after a handler ran a method on the account at [a] and
    left it in the state [w']: the account at [a] is the one of [w'], the
    console and the clock are those of [w'], [resto] is left to read and
    every other account is as it was. *)
Definition so_a_conta (e e' : Estado A) (a : nat) (w' : Mundo A)
           (resto : list string) : Prop :=
  main_clientes e' = main_clientes e /\
  main_contas e' = main_contas e /\
  entrada e' = resto /\
  saida e' = stdout w' /\
  relogio e' = relogio e /\
  leituras e' = tique w' /\
  length (objetos e') = length (objetos e) /\
  nth_error (objetos e') a = Some (conta w') /\
  (forall b : nat, b <> a ->
     nth_error (objetos e') b = nth_error (objetos e) b).

(** A shell state without clients or accounts, whose clock was never
    read. *)
Definition banco_vazio (e : Estado A) : Prop :=
  main_clientes e = [] /\ main_contas e = [] /\ objetos e = [] /\
  leituras e = O.

(** How a run of [Desafio_02.main] can end. *)
Definition desfecho_de_main (x : Resultado unit) : Prop :=
  x = Ok tt \/ x = Levanta EOFError \/
  x = Levanta (NameError "criar_cliente") \/
  x = Levanta (NameError "criar_conta") \/
  x = Levanta (NameError "listar_contas").

(** How reading amounts from [entrada] can fail: the input ran out, or one
    of its lines is not a number. *)
Definition falha_de_leitura (entrada : list string) (x : Excecao) : Prop :=
  x = EOFError \/
  exists s : string,
    x = ValueError s /\ In s entrada /\ float_de_str s = None.

(** The locals [desadio.main] can hold at the top of its loop. *)
Inductive locais_alcancaveis : desadio.Locais A -> Prop :=
| alc_inicio : locais_alcancaveis desadio.locais_iniciais
| alc_iteracao (l l' : desadio.Locais A) (c c' : desadio.Console) :
    locais_alcancaveis l ->
    desadio.main_iteracao float_de_str formato_2f l c = (Ok (Some l'), c') ->
    locais_alcancaveis l'.

(** The lines [desadio.depositar] and [desadio.sacar] add to [extrato]. *)
Definition linha_deposito (valor : A) : string :=
  ("Depósito: R$ " ++ formato_2f valor ++ nl)%string.
Definition linha_saque (valor : A) : string :=
  ("Saque: R$ " ++ formato_2f valor ++ nl)%string.

(** What one iteration of [desadio.main] can do to the locals: nothing, an
    accepted deposit, or an accepted withdrawal. *)
Definition passo_de_main (l l' : desadio.Locais A) : Prop :=
  desadio.limite l' = desadio.limite l /\
  desadio.LIMITE_SAQUES l' = desadio.LIMITE_SAQUES l /\
  (l' = l \/
   (exists v : A,
      (v >? de_int 0) = true /\
      desadio.saldo l' = desadio.saldo l + v /\
      desadio.extrato l' = (desadio.extrato l ++ linha_deposito v)%string /\
      desadio.numero_saques l' = desadio.numero_saques l) \/
   (exists v : A,
      (v >? de_int 0) = true /\
      (v >? desadio.saldo l) = false /\
      (v >? desadio.limite l) = false /\
      (desadio.numero_saques l < desadio.LIMITE_SAQUES l)%nat /\
      desadio.saldo l' = desadio.saldo l - v /\
      desadio.extrato l' = (desadio.extrato l ++ linha_saque v)%string /\
      desadio.numero_saques l' = S (desadio.numero_saques l))).

End Vocabulario.

(** * More concrete inputs *)

(** A [float(...)] that reads ["50"] as 50 and nothing else. *)
Definition le_50 : string -> option Z :=
  fun s => if String.eqb s "50" then Some 50 else None.

(** Two clients: one with two accounts, one with none. *)
Definition cliente_ana : PessoaFisica :=
  mkPessoaFisica "Rua A, 1" [1%nat; 0%nat] "Ana" "01-01-1990" "111".

Definition cliente_bia : PessoaFisica :=
  mkPessoaFisica "Rua B, 2" [] "Bia" "02-02-1992" "222".

(** The account at address 1, Ana's first: a [ContaCorrente] with balance
    100 and one deposit on record. *)
Definition conta_da_ana : Conta Z :=
  mkConta (ClasseContaCorrente corrente_padrao) 100 2 "0001" O
          (mkHistorico [mkRegistro "Deposito" 100 "01-01-2024 00:00:00"]).

(** A bank with the two clients and two stored accounts, and the lines
    still to be read. *)
Definition banco_exemplo (linhas : list string) : Estado Z :=
  mkEstado [cliente_ana; cliente_bia] [0%nat; 1%nat]
           [ContaCorrente_init 1 O limite_padrao limite_saques_padrao;
            conta_da_ana]
           linhas [] relogio_parado 1.

(** A [ContaCorrente] after a deposit and three recorded withdrawals. *)
Definition corrente_esgotada : Mundo Z :=
  registrar_todas [Deposito 1000; Saque 100; Saque 100; Saque 100]
                  corrente_nova.

(** Locals of [desadio.main] after three withdrawals. *)
Definition locais_esgotados : desadio.Locais Z :=
  desadio.mkLocais 100 500 EmptyString 3 3.

(** The locals of [desadio.main] after a first deposit of 50. *)
Definition locais_com_50 : desadio.Locais Z :=
  desadio.mkLocais 50 500
    (linha_deposito sem_formato 50) 0 3.

(** A new [ContaCorrente] with the default limits and [float] amounts, and
    the same after [sacar(float("nan"))]. *)
Definition corrente_float_nova : Mundo float :=
  mundo_inicial (ContaCorrente_init 1 O limite_padrao limite_saques_padrao)
                relogio_parado.

Definition corrente_float_nan : Mundo float :=
  snd (sacar PrimFloat.nan corrente_float_nova).

(** A [float(...)] that reads every line as NaN, as Python reads ["nan"],
    and a format for [float] amounts. *)
Definition le_nan : string -> option float := fun _ => Some PrimFloat.nan.

Definition sem_formato_float : float -> string := fun _ => EmptyString.

(** * Properties of [Desafio_02.py] *)

Ltac desdobra :=
  unfold sacar, depositar, ContaCorrente_sacar, Conta_sacar, Conta_depositar,
    ler_transacoes, ler_saldo, gravar_saldo, print, bind, ret;
  cbn [fst snd conta stdout agora tique classe saldo numero agencia cliente
       historico transacoes].

Section Contas.
Context {A : Type} `{PyNum A}.
Local Open Scope py_scope.

Lemma Conta_sacar_casos (w : Mundo A) (v : A) :
  Conta_sacar v w =
    if v <=? de_int 0 then recusa msg_valor_invalido w
    else if v >? saldo (conta w) then recusa msg_saldo_insuficiente w
    else aceita (saldo (conta w) - v) msg_saque_ok w.
Proof.
  desdobra. destruct (v <=? de_int 0); [reflexivity|].
  destruct (v >? saldo (conta w)); reflexivity.
Qed.

Lemma Conta_depositar_casos (w : Mundo A) (v : A) :
  Conta_depositar v w =
    if v <=? de_int 0 then recusa msg_valor_invalido w
    else aceita (saldo (conta w) + v) msg_deposito_ok w.
Proof.
  desdobra. destruct (v <=? de_int 0); reflexivity.
Qed.

Lemma ContaCorrente_sacar_casos (cc : Corrente A) (w : Mundo A) (v : A) :
  ContaCorrente_sacar cc v w =
    if v >? limite cc then recusa msg_excede_limite w
    else if (limite_saques cc
             <=? conta_saques (transacoes (historico (conta w))))%nat
         then recusa msg_excede_saques w
         else Conta_sacar v w.
Proof.
  unfold ContaCorrente_sacar, ler_transacoes, print, bind, ret, recusa.
  cbn [fst snd].
  destruct (v >? limite cc); [reflexivity|].
  destruct (limite_saques cc <=? _)%nat; reflexivity.
Qed.

(** C5. On a base [Conta], [sacar(v)] is refused with the invalid-amount
    message when [v <= 0], refused with the insufficient-balance message
    when [v <= 0] is false and [v > saldo], and in every other case returns
    [True] with [saldo - v] as the new balance; a refused call leaves the
    account as it was. *)
Theorem Conta_sacar_correto (w : Mundo A) (v : A) :
  classe (conta w) = ClasseConta ->
  ((v <=? de_int 0) = true ->
     sacar v w = recusa msg_valor_invalido w) /\
  ((v <=? de_int 0) = false -> (v >? saldo (conta w)) = true ->
     sacar v w = recusa msg_saldo_insuficiente w) /\
  ((v <=? de_int 0) = false -> (v >? saldo (conta w)) = false ->
     sacar v w = aceita (saldo (conta w) - v) msg_saque_ok w).
Proof.
  intros Hc. unfold sacar. rewrite Hc, Conta_sacar_casos.
  repeat split; intros; repeat match goal with E : _ = _ |- _ => rewrite E end;
    reflexivity.
Qed.

(** C6. On every account, [depositar(v)] is refused with the invalid-amount
    message and leaves the account as it was when [v <= 0], and otherwise
    returns [True] with [saldo + v] as the new balance. *)
Theorem Conta_depositar_correto (w : Mundo A) (v : A) :
  ((v <=? de_int 0) = true ->
     depositar v w = recusa msg_valor_invalido w) /\
  ((v <=? de_int 0) = false ->
     depositar v w = aceita (saldo (conta w) + v) msg_deposito_ok w).
Proof.
  unfold depositar. rewrite Conta_depositar_casos.
  split; intros E; rewrite E; reflexivity.
Qed.

End Contas.

Section Registros.
Context {A : Type} `{PyNum A}.
Local Open Scope list_scope.
Local Open Scope py_scope.

Lemma recusa_fst msg (w : Mundo A) : fst (recusa msg w) = false.
Proof. reflexivity. Qed.

Lemma recusa_conta msg (w : Mundo A) : conta (snd (recusa msg w)) = conta w.
Proof. reflexivity. Qed.

Lemma aceita_fst s msg (w : Mundo A) : fst (aceita s msg w) = true.
Proof. reflexivity. Qed.

(** A call of [sacar] or [depositar] is either refused, or accepted with
    some new balance. *)
Lemma operar_recusa_ou_aceita (t : Transacao A) (w : Mundo A) :
  (exists msg, operar t w = recusa msg w) \/
  (exists msg,
     operar t w =
       aceita (match t with
               | Saque v => saldo (conta w) - v
               | Deposito v => saldo (conta w) + v
               end) msg w).
Proof.
  destruct t as [v|v]; cbn [operar].
  - unfold sacar. destruct (classe (conta w)) as [|cc].
    + rewrite Conta_sacar_casos.
      destruct (v <=? de_int 0); [left; eauto|].
      destruct (v >? saldo (conta w)); [left; eauto|right; eauto].
    + rewrite ContaCorrente_sacar_casos, Conta_sacar_casos.
      destruct (v >? limite cc); [left; eauto|].
      destruct (limite_saques cc <=? _)%nat; [left; eauto|].
      destruct (v <=? de_int 0); [left; eauto|].
      destruct (v >? saldo (conta w)); [left; eauto|right; eauto].
  - unfold depositar. rewrite Conta_depositar_casos.
    destruct (v <=? de_int 0); [left; eauto|right; eauto].
Qed.

Lemma registrar_operar (t : Transacao A) (w : Mundo A) :
  registrar t w =
    if fst (operar t w) then adicionar_transacao t (snd (operar t w))
    else (tt, snd (operar t w)).
Proof.
  destruct t as [v|v]; cbn [registrar operar];
    unfold Saque_registrar, Deposito_registrar, bind, ret;
    match goal with |- context [fst ?x] => destruct (fst x) end; reflexivity.
Qed.

(** The history after [registrar t], by the result of the balance call. *)
Lemma registrar_transacoes (t : Transacao A) (w : Mundo A) :
  transacoes (historico (conta (snd (registrar t w)))) =
    if fst (operar t w)
    then transacoes (historico (conta w)) ++ [registro_de t w]
    else transacoes (historico (conta w)).
Proof.
  rewrite registrar_operar.
  destruct (operar_recusa_ou_aceita t w) as [[msg E]|[msg E]]; rewrite E;
    reflexivity.
Qed.

(** C8. When the [sacar] / [depositar] call made by [registrar] returns
    [False], the account (balance and history alike) is exactly as before;
    when it returns [True], the balance has moved by the amount and the
    history has one more record, the one of this transaction. *)
Theorem registrar_tudo_ou_nada (t : Transacao A) (w : Mundo A) :
  (fst (operar t w) = false -> conta (snd (registrar t w)) = conta w) /\
  (fst (operar t w) = true ->
     saldo (conta (snd (registrar t w))) =
       match t with
       | Saque v => saldo (conta w) - v
       | Deposito v => saldo (conta w) + v
       end /\
     transacoes (historico (conta (snd (registrar t w)))) =
       transacoes (historico (conta w)) ++ [registro_de t w]).
Proof.
  rewrite registrar_operar.
  destruct (operar_recusa_ou_aceita t w) as [[msg E]|[msg E]]; rewrite E;
    cbn [fst snd recusa aceita]; split; intros Hr; try discriminate Hr.
  - reflexivity.
  - split; reflexivity.
Qed.

Lemma registrar_todas_comprimento (ts : list (Transacao A)) :
  forall w : Mundo A,
    length (transacoes (historico (conta (registrar_todas ts w)))) =
      (length (transacoes (historico (conta w))) + sucessos ts w)%nat.
Proof.
  induction ts as [|t ts IH]; intros w; cbn [registrar_todas sucessos].
  - now rewrite Nat.add_0_r.
  - rewrite IH, registrar_transacoes.
    destruct (fst (operar t w)).
    + rewrite length_app. cbn [length]. lia.
    + lia.
Qed.

(** C2. [registrar] appends a record exactly when the balance call it makes
    returns [True]; so after any sequence of [registrar] calls on a new
    account the history holds as many records as there were successful
    calls. *)
Theorem registro_sse_sucesso :
  (forall (t : Transacao A) (w : Mundo A),
     (fst (operar t w) = true <->
        transacoes (historico (conta (snd (registrar t w)))) =
          transacoes (historico (conta w)) ++ [registro_de t w]) /\
     (fst (operar t w) = false <->
        transacoes (historico (conta (snd (registrar t w)))) =
          transacoes (historico (conta w)))) /\
  (forall (c : Conta A) (relogio : nat -> string) (ts : list (Transacao A)),
     transacoes (historico c) = [] ->
     length (transacoes (historico
               (conta (registrar_todas ts (mundo_inicial c relogio))))) =
       sucessos ts (mundo_inicial c relogio)).
Proof.
  split.
  - intros t w. rewrite registrar_transacoes.
    destruct (fst (operar t w)); split; split; intros E;
      try reflexivity; try discriminate E; exfalso.
    + apply (f_equal (@length _)) in E. rewrite length_app in E.
      cbn [length] in E. lia.
    + apply (f_equal (@length _)) in E. rewrite length_app in E.
      cbn [length] in E. lia.
  - intros c relogio ts Hc. rewrite registrar_todas_comprimento.
    cbn [mundo_inicial conta]. now rewrite Hc.
Qed.

End Registros.

Section Saldo.
Context {A : Type} `{PyNumOrdenado A}.
Local Open Scope list_scope.
Local Open Scope py_scope.

Lemma Conta_sacar_nao_negativo (w : Mundo A) (v : A) :
  nao_negativo (saldo (conta w)) ->
  nao_negativo (saldo (conta (snd (Conta_sacar v w)))).
Proof.
  intros Hs. rewrite Conta_sacar_casos.
  destruct (v <=? de_int 0) eqn:Ev; [exact Hs|].
  destruct (v >? saldo (conta w)) eqn:Eg; [exact Hs|].
  cbn [aceita snd conta saldo]. now apply subtrai_nao_negativa.
Qed.

Lemma sacar_nao_negativo (w : Mundo A) (v : A) :
  nao_negativo (saldo (conta w)) ->
  nao_negativo (saldo (conta (snd (sacar v w)))).
Proof.
  intros Hs. unfold sacar. destruct (classe (conta w)) as [|cc].
  - now apply Conta_sacar_nao_negativo.
  - rewrite ContaCorrente_sacar_casos.
    destruct (v >? limite cc); [exact Hs|].
    destruct (limite_saques cc <=? _)%nat; [exact Hs|].
    now apply Conta_sacar_nao_negativo.
Qed.

Lemma depositar_nao_negativo (w : Mundo A) (v : A) :
  nao_negativo (saldo (conta w)) ->
  nao_negativo (saldo (conta (snd (depositar v w)))).
Proof.
  intros Hs. unfold depositar. rewrite Conta_depositar_casos.
  destruct (v <=? de_int 0) eqn:Ev; [exact Hs|].
  cbn [aceita snd conta saldo]. now apply soma_nao_negativa.
Qed.

Lemma chamar_todas_nao_negativo (cs : list (Chamada A)) :
  forall w : Mundo A,
    nao_negativo (saldo (conta w)) ->
    nao_negativo (saldo (conta (chamar_todas cs w))).
Proof.
  induction cs as [|c cs IH]; intros w Hs; cbn [chamar_todas].
  - exact Hs.
  - apply IH. destruct c as [v|v]; cbn [chamar].
    + now apply sacar_nao_negativo.
    + now apply depositar_nao_negativo.
Qed.

Lemma registrar_nao_negativo (t : Transacao A) (w : Mundo A) :
  nao_negativo (saldo (conta w)) ->
  nao_negativo (saldo (conta (snd (registrar t w)))).
Proof.
  intros Hs. rewrite registrar_operar.
  assert (Ho : nao_negativo (saldo (conta (snd (operar t w)))))
    by (destruct t as [v|v]; cbn [operar];
        [now apply sacar_nao_negativo | now apply depositar_nao_negativo]).
  destruct (fst (operar t w)); exact Ho.
Qed.

(** The balance is not negative in any state an account can be in. *)
Lemma alcancavel_nao_negativo (w : Mundo A) :
  alcancavel w -> nao_negativo (saldo (conta w)).
Proof.
  induction 1 as [| |w v _ IH|w v _ IH|w t _ IH].
  - apply zero_nao_negativo.
  - apply zero_nao_negativo.
  - now apply sacar_nao_negativo.
  - now apply depositar_nao_negativo.
  - now apply registrar_nao_negativo.
Qed.

(** The balance never drops below zero.  On every account, of either
    class, created with balance 0, the test [saldo < 0] is false after any
    call of a sequence of [sacar] and [depositar] calls, that is after every
    prefix of the sequence.  On [int] this is [0 <= saldo]
    ([nao_negativo_int]); on [float] it leaves room for a NaN balance. *)
Theorem saldo_nunca_negativo (c : Conta A) (relogio : nat -> string)
        (cs : list (Chamada A)) (n : nat) :
  saldo c = de_int 0 ->
  nao_negativo
    (saldo (conta (chamar_todas (firstn n cs) (mundo_inicial c relogio)))).
Proof.
  intros Hc. apply chamar_todas_nao_negativo.
  cbn [mundo_inicial conta]. rewrite Hc. apply zero_nao_negativo.
Qed.

(** C3. [ContaCorrente.sacar] tests the ceiling first, the number of
    withdrawals second and only then runs the checks of [Conta.sacar]:
    an amount above the ceiling is refused with the ceiling message whatever
    else holds; an amount within the ceiling with the quota used up is
    refused with the quota message whatever else holds; otherwise the call
    is [Conta.sacar]'s, and an amount above a balance that is not negative
    (every balance is so, [alcancavel_nao_negativo]) is then refused with
    the insufficient-balance message. *)
Theorem ContaCorrente_sacar_ordem (w : Mundo A) (cc : Corrente A) (v : A) :
  classe (conta w) = ClasseContaCorrente cc ->
  ((v >? limite cc) = true -> sacar v w = recusa msg_excede_limite w) /\
  ((v >? limite cc) = false ->
   (limite_saques cc <= conta_saques (transacoes (historico (conta w))))%nat ->
   sacar v w = recusa msg_excede_saques w) /\
  ((v >? limite cc) = false ->
   (conta_saques (transacoes (historico (conta w))) < limite_saques cc)%nat ->
   sacar v w = Conta_sacar v w) /\
  (nao_negativo (saldo (conta w)) ->
   (v >? limite cc) = false ->
   (conta_saques (transacoes (historico (conta w))) < limite_saques cc)%nat ->
   (v >? saldo (conta w)) = true ->
   sacar v w = recusa msg_saldo_insuficiente w).
Proof.
  intros Hc. unfold sacar. rewrite Hc, ContaCorrente_sacar_casos.
  repeat split.
  - intros E. now rewrite E.
  - intros E Hn. rewrite E.
    apply Nat.leb_le in Hn. now rewrite Hn.
  - intros E Hn. rewrite E.
    apply Nat.leb_gt in Hn. now rewrite Hn.
  - intros Hs E Hn Eg. rewrite E.
    apply Nat.leb_gt in Hn. rewrite Hn, Conta_sacar_casos.
    rewrite (maior_que_nao_negativo _ _ Hs Eg). now rewrite Eg.
Qed.

End Saldo.

Section Saques.
Context {A : Type} `{PyNum A}.
Local Open Scope list_scope.
Local Open Scope py_scope.

Lemma conta_saques_app (l : list (Registro A)) (r : Registro A) :
  conta_saques (l ++ [r]) =
    (conta_saques l + (if String.eqb (tipo r) "Saque" then 1 else 0))%nat.
Proof.
  induction l as [|x l IH]; cbn [conta_saques app].
  - destruct (String.eqb (tipo r) "Saque"); reflexivity.
  - rewrite IH. destruct (String.eqb (tipo x) "Saque"); reflexivity.
Qed.

Lemma registrar_classe (t : Transacao A) (w : Mundo A) :
  classe (conta (snd (registrar t w))) = classe (conta w).
Proof.
  rewrite registrar_operar.
  destruct (operar_recusa_ou_aceita t w) as [[msg E]|[msg E]]; rewrite E;
    reflexivity.
Qed.

Lemma registrar_todas_classe (ts : list (Transacao A)) :
  forall w : Mundo A,
    classe (conta (registrar_todas ts w)) = classe (conta w).
Proof.
  induction ts as [|t ts IH]; intros w; cbn [registrar_todas].
  - reflexivity.
  - now rewrite IH, registrar_classe.
Qed.

(** One [registrar] keeps the number of [Saque] records within the quota. *)
Lemma registrar_dentro_do_limite (t : Transacao A) (w : Mundo A)
      (cc : Corrente A) :
  classe (conta w) = ClasseContaCorrente cc ->
  (conta_saques (transacoes (historico (conta w))) <= limite_saques cc)%nat ->
  (conta_saques (transacoes (historico (conta (snd (registrar t w)))))
   <= limite_saques cc)%nat.
Proof.
  intros Hc Hn. rewrite registrar_transacoes.
  destruct (fst (operar t w)) eqn:Eo; [|exact Hn].
  rewrite conta_saques_app. destruct t as [v|v]; cbn.
  - cbn [operar] in Eo. unfold sacar in Eo.
    rewrite Hc, ContaCorrente_sacar_casos in Eo.
    destruct (v >? limite cc); [discriminate Eo|].
    destruct (limite_saques cc <=? _)%nat eqn:El; [discriminate Eo|].
    apply Nat.leb_gt in El. lia.
  - lia.
Qed.

Lemma registrar_todas_dentro_do_limite (ts : list (Transacao A))
      (cc : Corrente A) :
  forall w : Mundo A,
    classe (conta w) = ClasseContaCorrente cc ->
    (conta_saques (transacoes (historico (conta w)))
     <= limite_saques cc)%nat ->
    (conta_saques (transacoes (historico (conta (registrar_todas ts w))))
     <= limite_saques cc)%nat.
Proof.
  induction ts as [|t ts IH]; intros w Hc Hn; cbn [registrar_todas].
  - exact Hn.
  - apply IH.
    + now rewrite registrar_classe.
    + now apply registrar_dentro_do_limite.
Qed.

Lemma registrar_todas_conta_saques (ts : list (Transacao A)) :
  forall w : Mundo A,
    conta_saques (transacoes (historico (conta (registrar_todas ts w)))) =
      (conta_saques (transacoes (historico (conta w)))
       + saques_bem_sucedidos ts w)%nat.
Proof.
  induction ts as [|t ts IH]; intros w;
    cbn [registrar_todas saques_bem_sucedidos].
  - now rewrite Nat.add_0_r.
  - rewrite IH, registrar_transacoes.
    destruct t as [v|v]; cbn [operar];
      match goal with |- context [fst ?x] => destruct (fst x) end;
      rewrite ?conta_saques_app; cbn; lia.
Qed.

(** C7. On a [ContaCorrente] reached from a new one by any sequence of
    [registrar] calls, the number of [Saque] records in the history is at
    most [limite_saques]; and with the default ceiling 500 and quota 3, once
    three withdrawals have succeeded a further [sacar] of any amount within
    the ceiling is refused with the quota message, whatever the balance. *)
Theorem saques_dentro_do_limite :
  (forall (numero : Z) (cliente : nat) (lim : A) (lim_saques : nat)
          (relogio : nat -> string) (ts : list (Transacao A)),
     (conta_saques
        (transacoes (historico (conta
           (registrar_todas ts
              (mundo_inicial
                 (ContaCorrente_init numero cliente lim lim_saques)
                 relogio)))))
      <= lim_saques)%nat) /\
  (forall (numero : Z) (cliente : nat) (relogio : nat -> string)
          (ts : list (Transacao A)) (v : A),
     let w0 :=
       mundo_inicial
         (ContaCorrente_init numero cliente limite_padrao
                             limite_saques_padrao) relogio in
     saques_bem_sucedidos ts w0 = 3%nat ->
     (v >? limite_padrao) = false ->
     sacar v (registrar_todas ts w0) =
       recusa msg_excede_saques (registrar_todas ts w0)).
Proof.
  split.
  - intros numero cliente lim lim_saques relogio ts.
    apply (registrar_todas_dentro_do_limite ts (mkCorrente lim lim_saques)).
    + reflexivity.
    + cbn. lia.
  - intros numero cliente relogio ts v w0 Hn Ev. unfold sacar.
    rewrite registrar_todas_classe. cbn [w0 mundo_inicial conta classe
      ContaCorrente_init].
    rewrite ContaCorrente_sacar_casos. cbn [limite limite_saques].
    rewrite Ev, registrar_todas_conta_saques, Hn. reflexivity.
Qed.

End Saques.

(** * The two number types have the order facts

    For [float] the facts are read off the Standard Library's specification
    of binary64: the sign of a rounded result is the sign of the exact one,
    and two canonical positive numbers compare as their aligned
    mantissas. *)

Lemma binary_round_aux_sinal sx mx ex lx :
  sinal_de sx (binary_round_aux prec emax sx mx ex lx).
Proof.
  unfold binary_round_aux.
  destruct (shr_fexp prec emax mx ex lx) as [mrs' e'].
  destruct (shr_fexp prec emax _ e' loc_Exact) as [mrs'' e''].
  destruct (shr_m mrs''); cbn [sinal_de]; auto.
  destruct (e'' <=? emax - prec); reflexivity.
Qed.

Lemma binary_normalize_sinal m e :
  0 <= m -> sinal_de false (binary_normalize prec emax m e false).
Proof.
  intros Hm. destruct m as [|p|p]; cbn [binary_normalize].
  - reflexivity.
  - unfold binary_round. destruct (shl_align _ _ _) as [mz ez].
    apply binary_round_aux_sinal.
  - lia.
Qed.

Lemma digits2_pos_bounds (m : positive) :
  2 ^ (Z.pos (digits2_pos m) - 1) <= Z.pos m < 2 ^ Z.pos (digits2_pos m).
Proof.
  induction m as [m IH|m IH|]; cbn [digits2_pos].
  - rewrite Pos2Z.inj_succ.
    replace (Z.succ (Z.pos (digits2_pos m)) - 1)
      with (Z.succ (Z.pos (digits2_pos m) - 1)) by lia.
    rewrite !Z.pow_succ_r by lia. lia.
  - rewrite Pos2Z.inj_succ.
    replace (Z.succ (Z.pos (digits2_pos m)) - 1)
      with (Z.succ (Z.pos (digits2_pos m) - 1)) by lia.
    rewrite !Z.pow_succ_r by lia. lia.
  - cbn. lia.
Qed.

Lemma shl_align_fst (m : positive) (e e' : Z) :
  e' <= e -> Z.pos (fst (shl_align m e e')) = Z.pos m * 2 ^ (e - e').
Proof.
  intros He. unfold shl_align.
  destruct (e' - e) as [|d|d] eqn:Ed; cbn [fst].
  - replace (e - e') with 0 by lia. lia.
  - lia.
  - change (Pos.iter xO m d) with (shift_pos d m).
    rewrite shift_pos_correct, Zpower_pos_nat, Zpower_nat_Z, positive_nat_Z.
    replace (e - e') with (Z.pos d) by lia. lia.
Qed.

Lemma bounded_canonico (m : positive) (e : Z) :
  bounded prec emax m e = true ->
  Z.pos (digits2_pos m) <= 53 /\ (e = -1074 \/ Z.pos (digits2_pos m) = 53).
Proof.
  unfold bounded, canonical_mantissa, fexp, emin, prec, emax.
  intros Hb. apply andb_prop in Hb. destruct Hb as [Hc _].
  apply Z.eqb_eq in Hc. lia.
Qed.

Lemma bounded_emin m e : bounded prec emax m e = true -> -1074 <= e.
Proof.
  unfold bounded, canonical_mantissa, fexp, emin, prec, emax.
  intros Hb. apply andb_prop in Hb. destruct Hb as [Hc _].
  apply Z.eqb_eq in Hc. lia.
Qed.

(** Two positive finite floats in canonical form, the first not below the
    second: aligned on the smaller exponent, the mantissas are in the same
    order. *)
Lemma alinhados_em_ordem (mx my : positive) (ex ey : Z) :
  bounded prec emax mx ex = true ->
  bounded prec emax my ey = true ->
  SFltb (S754_finite false mx ex) (S754_finite false my ey) = false ->
  0 <= Z.pos (fst (shl_align mx ex (Z.min ex ey)))
       - Z.pos (fst (shl_align my ey (Z.min ex ey))).
Proof.
  intros Hx Hy Hlt.
  rewrite !shl_align_fst by lia.
  unfold SFltb, SFcompare in Hlt.
  destruct (Z.compare_spec ex ey) as [E|E|E].
  - subst ey. rewrite Z.min_id, Z.sub_diag. cbn [Z.pow].
    change (Pos.compare_cont Eq mx my) with (Pos.compare mx my) in Hlt.
    destruct (Pos.compare_spec mx my) as [E|E|E]; try discriminate Hlt; lia.
  - discriminate Hlt.
  - rewrite Z.min_r by lia. rewrite Z.sub_diag. cbn [Z.pow].
    pose proof (digits2_pos_bounds mx) as Bx.
    pose proof (digits2_pos_bounds my) as By.
    destruct (bounded_canonico _ _ Hx) as [_ Cx].
    destruct (bounded_canonico _ _ Hy) as [Dy _].
    pose proof (bounded_emin _ _ Hy) as Ey.
    destruct Cx as [Cx|Cx]; [lia|].
    rewrite Cx in Bx. cbn in Bx.
    assert (Z.pos my < 2 ^ 53).
    { eapply Z.lt_le_trans; [apply By|]. apply Z.pow_le_mono_r; lia. }
    assert (2 ^ 1 <= 2 ^ (ex - ey)) by (apply Z.pow_le_mono_r; lia).
    change (2 ^ 53) with 9007199254740992 in *.
    change (2 ^ 1) with 2 in *.
    nia.
Qed.

Lemma sf_nao_negativo_ltb (x : spec_float) :
  SFltb x (S754_zero false) = false <-> sf_nao_negativo x.
Proof.
  destruct x as [s|[|]| |[|] m e]; cbn; intuition discriminate.
Qed.

Lemma sf_positivo_ou_nan_leb (x : spec_float) :
  SFleb x (S754_zero false) = false <-> sf_positivo_ou_nan x.
Proof.
  destruct x as [s|[|]| |[|] m e]; cbn; intuition discriminate.
Qed.

Lemma sinal_nao_negativo (x : spec_float) :
  sinal_de false x -> sf_nao_negativo x.
Proof.
  destruct x as [s|s| |s m e]; cbn; intros E; subst; exact I.
Qed.

Lemma SFadd_nao_negativo (s v : spec_float) :
  sf_nao_negativo s -> sf_positivo_ou_nan v ->
  sf_nao_negativo (SF64add s v).
Proof.
  destruct s as [ss|[|]| |[|] ms es]; destruct v as [sv|[|]| |[|] mv ev];
    cbn [sf_nao_negativo sf_positivo_ou_nan]; try contradiction; intros _ _;
    try exact I.
  apply sinal_nao_negativo. unfold SF64add, SFadd.
  apply binary_normalize_sinal. cbn [cond_Zopp]. lia.
Qed.

Lemma SFsub_nao_negativo (s v : spec_float) :
  valid_binary s = true -> valid_binary v = true ->
  sf_nao_negativo s -> sf_positivo_ou_nan v -> SFltb s v = false ->
  sf_nao_negativo (SF64sub s v).
Proof.
  destruct s as [ss|[|]| |[|] ms es]; destruct v as [sv|[|]| |[|] mv ev];
    cbn [sf_nao_negativo sf_positivo_ou_nan]; try contradiction;
    intros Vs Vv _ _ Hlt; try exact I; try discriminate Hlt.
  apply sinal_nao_negativo. unfold SF64sub, SFsub.
  apply binary_normalize_sinal. cbn [cond_Zopp].
  now apply alinhados_em_ordem.
Qed.

Lemma SFltb_positivo (s v : spec_float) :
  sf_nao_negativo s -> SFltb s v = true -> sf_positivo_ou_nan v.
Proof.
  destruct s as [ss|[|]| |[|] ms es]; destruct v as [sv|[|]| |[|] mv ev];
    cbn; try contradiction; intros _ Hlt; try exact I; try discriminate Hlt.
Qed.

#[export] Instance PyNumOrdenado_int : PyNumOrdenado Z.
Proof.
  split; unfold nao_negativo; cbn [de_int soma subtrai menor_igual maior
    PyNum_int]; intros *; rewrite ?Z.gtb_ltb, ?Z.ltb_ge, ?Z.ltb_lt, ?Z.leb_gt;
    lia.
Qed.

Lemma nao_negativo_float (x : float) :
  nao_negativo x <-> sf_nao_negativo (Prim2SF x).
Proof.
  unfold nao_negativo. cbn [de_int maior PyNum_float float_de_int].
  rewrite FloatAxioms.ltb_spec. apply sf_nao_negativo_ltb.
Qed.

Lemma nao_positivo_float (x : float) :
  PrimFloat.leb x PrimFloat.zero = false <-> sf_positivo_ou_nan (Prim2SF x).
Proof.
  rewrite FloatAxioms.leb_spec. apply sf_positivo_ou_nan_leb.
Qed.

#[export] Instance PyNumOrdenado_float : PyNumOrdenado float.
Proof.
  split.
  - reflexivity.
  - intros s v Hs Hv. apply nao_negativo_float in Hs.
    apply nao_positivo_float in Hv. apply nao_negativo_float.
    cbn [soma PyNum_float]. rewrite FloatAxioms.add_spec.
    now apply SFadd_nao_negativo.
  - intros s v Hs Hv Hg. apply nao_negativo_float in Hs.
    apply nao_positivo_float in Hv. apply nao_negativo_float.
    cbn [maior PyNum_float] in Hg. rewrite FloatAxioms.ltb_spec in Hg.
    cbn [subtrai PyNum_float]. rewrite FloatAxioms.sub_spec.
    apply SFsub_nao_negativo; auto using Prim2SF_valid.
  - intros s v Hs Hg. apply nao_negativo_float in Hs.
    cbn [maior PyNum_float] in Hg. rewrite FloatAxioms.ltb_spec in Hg.
    apply nao_positivo_float. now apply (SFltb_positivo (Prim2SF s)).
Qed.

(** On [int], "not negative" is [0 <= x]. *)
Lemma nao_negativo_int (x : Z) : nao_negativo x <-> 0 <= x.
Proof.
  unfold nao_negativo. cbn [de_int maior PyNum_int].
  rewrite Z.gtb_ltb, Z.ltb_ge. reflexivity.
Qed.

(** * Deposit followed by withdrawal *)



(** * Properties of [desadio.py] *)

Section Procedural.
Context {A : Type} `{PyNum A}.
Variable float_de_str : string -> option A.
Variable formato_2f : A -> string.
Local Open Scope list_scope.
Local Open Scope py_scope.

(** C9. In the procedural [sacar] the balance test comes first: when the
    amount read is above the balance the insufficient-balance message is
    printed, whatever the ceiling and the number of withdrawals (so also
    when the amount is above the ceiling), and [saldo], [extrato] and
    [numero_saques] are returned as they were passed. *)
Theorem sacar_saldo_insuficiente_primeiro
        (saldo : A) (extrato : string) (numero_saques : nat)
        (limite : A) (LIMITE_SAQUES : nat)
        (linha : string) (resto out : list string) (valor : A) :
  float_de_str linha = Some valor ->
  (valor >? saldo) = true ->
  desadio.sacar float_de_str formato_2f saldo extrato numero_saques limite
                LIMITE_SAQUES (desadio.mkConsole (linha :: resto) out) =
    (Ok (saldo, extrato, numero_saques),
     desadio.mkConsole resto
       (out ++ ["Informe o valor do saque: "%string;
                desadio.msg_saldo_insuficiente])).
Proof.
  intros Hf Hg.
  unfold desadio.sacar, desadio.input, desadio.float_, desadio.print,
    bind_s, ret_s.
  cbn [desadio.entrada desadio.saida]. rewrite Hf. unfold ret_s.
  rewrite Hg. cbn [desadio.entrada desadio.saida].
  now rewrite <- app_assoc.
Qed.

End Procedural.

(** * The menu of [Desafio_02.py] *)

Section Menu.
Context {A : Type} `{PyNum A}.
Variable float_de_str : string -> option A.
Variable formato_2f : A -> string.
Local Open Scope list_scope.

(** C4, as the code has it.  [main] calls [criar_cliente], [criar_conta]
    and [listar_contas], which the module does not define: in every state,
    the commands "nu", "nc" and "lc" end the loop with [NameError]. *)
Theorem comandos_sem_definicao (e : Estado A) (resto : list string)
        (n : nat) :
  (entrada e = "nu"%string :: resto ->
   main_laco float_de_str formato_2f (S n) e =
     (Some (Levanta (NameError "criar_cliente")), apos_menu e resto)) /\
  (entrada e = "nc"%string :: resto ->
   main_laco float_de_str formato_2f (S n) e =
     (Some (Levanta (NameError "criar_conta")), apos_menu e resto)) /\
  (entrada e = "lc"%string :: resto ->
   main_laco float_de_str formato_2f (S n) e =
     (Some (Levanta (NameError "listar_contas")), apos_menu e resto)).
Proof.
  repeat split; intros He; cbn [main_laco];
    unfold main_iteracao, mostrar_menu, input, bind_s; rewrite He;
    reflexivity.
Qed.

End Menu.

(** * The theorems at concrete inputs *)

Lemma Conta_sacar_correto_witness :
  sacar 0 conta_de_100 = recusa msg_valor_invalido conta_de_100 /\
  sacar 101 conta_de_100 = recusa msg_saldo_insuficiente conta_de_100 /\
  sacar 30 conta_de_100 = aceita 70 msg_saque_ok conta_de_100.
Proof.
  split; [|split].
  - exact (proj1 (Conta_sacar_correto conta_de_100 0 eq_refl) eq_refl).
  - exact (proj1 (proj2 (Conta_sacar_correto conta_de_100 101 eq_refl))
                 eq_refl eq_refl).
  - exact (proj2 (proj2 (Conta_sacar_correto conta_de_100 30 eq_refl))
                 eq_refl eq_refl).
Defined.

Lemma Conta_depositar_correto_witness :
  depositar (-5) conta_de_100 = recusa msg_valor_invalido conta_de_100 /\
  depositar 50 conta_de_100 = aceita 150 msg_deposito_ok conta_de_100.
Proof.
  split.
  - exact (proj1 (Conta_depositar_correto conta_de_100 (-5)) eq_refl).
  - exact (proj2 (Conta_depositar_correto conta_de_100 50) eq_refl).
Defined.

Lemma registrar_tudo_ou_nada_witness :
  conta (snd (registrar (Saque 101) conta_de_100)) = conta conta_de_100 /\
  saldo (conta (snd (registrar (Saque 30) conta_de_100))) = 70.
Proof.
  split.
  - exact (proj1 (registrar_tudo_ou_nada (Saque 101) conta_de_100) eq_refl).
  - exact (proj1 (proj2 (registrar_tudo_ou_nada (Saque 30) conta_de_100)
                        eq_refl)).
Defined.

Lemma registro_sse_sucesso_witness :
  length (transacoes (historico (conta
            (registrar_todas [Deposito 1000; Saque 500; Saque 600; Saque 0]
                             corrente_nova)))) = 2%nat.
Proof.
  unfold corrente_nova.
  rewrite (proj2 registro_sse_sucesso) by reflexivity. reflexivity.
Defined.

Lemma saldo_nunca_negativo_witness :
  nao_negativo
    (saldo (conta (chamar_todas
                     (firstn 3 [ChDepositar um_decimo; ChDepositar dois_decimos;
                                ChSacar dois_decimos; ChSacar dois_decimos])
                     conta_float_nova))).
Proof.
  apply (saldo_nunca_negativo (Conta_init 1 O) relogio_parado). reflexivity.
Defined.

Lemma ContaCorrente_sacar_ordem_witness :
  sacar 600 corrente_nova = recusa msg_excede_limite corrente_nova /\
  sacar 10 corrente_nova = recusa msg_saldo_insuficiente corrente_nova.
Proof.
  split.
  - exact (proj1 (ContaCorrente_sacar_ordem corrente_nova corrente_padrao
                                            600 eq_refl) eq_refl).
  - apply (proj2 (proj2 (proj2 (ContaCorrente_sacar_ordem
                                  corrente_nova corrente_padrao 10 eq_refl))));
      try reflexivity.
    vm_compute. lia.
Defined.

Lemma saques_dentro_do_limite_witness :
  sacar 1
        (registrar_todas
           [Deposito 1000; Saque 100; Saque 100; Saque 100] corrente_nova) =
    recusa msg_excede_saques
           (registrar_todas
              [Deposito 1000; Saque 100; Saque 100; Saque 100] corrente_nova).
Proof.
  apply (proj2 saques_dentro_do_limite 1 O relogio_parado
               [Deposito 1000; Saque 100; Saque 100; Saque 100] 1);
    reflexivity.
Defined.


Lemma sacar_saldo_insuficiente_primeiro_witness :
  desadio.sacar le_600 sem_formato 100 EmptyString 3%nat 500 3%nat
                (desadio.mkConsole ["600"%string] []) =
    (Ok (100, EmptyString, 3%nat),
     desadio.mkConsole []
       ["Informe o valor do saque: "%string; desadio.msg_saldo_insuficiente]).
Proof.
  apply (sacar_saldo_insuficiente_primeiro le_600 sem_formato 100
           EmptyString 3%nat 500 3%nat "600" [] [] 600); reflexivity.
Defined.

Lemma comandos_sem_definicao_witness :
  fst (main (A:=Z) le_600 sem_formato 1 ["nu"%string; "q"%string]
            relogio_parado) =
    Some (Levanta (NameError "criar_cliente")).
Proof.
  unfold main.
  rewrite (proj1 (comandos_sem_definicao le_600 sem_formato
                    (mkEstado [] [] [] ["nu"%string; "q"%string] []
                              relogio_parado O)
                    ["q"%string] O));
    reflexivity.
Defined.

(** The scenario of the specification: on a new [ContaCorrente], after a
    deposit of 1000 two withdrawals of 500 succeed, the third is refused
    for insufficient balance, and the balance ends at 0. *)
Example cenario_corrente :
  let w := registrar_todas [Deposito 1000; Saque 500; Saque 500; Saque 500]
                           corrente_nova in
  saldo (conta w) = 0 /\
  conta_saques (transacoes (historico (conta w))) = 2%nat /\
  last (stdout w) EmptyString = msg_saldo_insuficiente.
Proof. repeat split. Qed.

(** * More about accounts, histories and transactions *)

Section Historia.
Context {A : Type} `{PyNum A}.
Local Open Scope list_scope.
Local Open Scope py_scope.

(** [registrar] reads the clock once when it records and not at all when
    it does not. *)
Lemma registrar_relogio (t : Transacao A) (w : Mundo A) :
  agora (snd (registrar t w)) = agora w /\
  tique (snd (registrar t w)) =
    if fst (operar t w) then S (tique w) else tique w.
Proof.
  rewrite registrar_operar.
  destruct (operar_recusa_ou_aceita t w) as [[msg E]|[msg E]]; rewrite E;
    split; reflexivity.
Qed.

Lemma registrar_saldo (t : Transacao A) (w : Mundo A) :
  saldo (conta (snd (registrar t w))) =
    if fst (operar t w) then aplicar_registro (saldo (conta w))
                                              (registro_de t w)
    else saldo (conta w).
Proof.
  rewrite registrar_operar.
  destruct (operar_recusa_ou_aceita t w) as [[msg E]|[msg E]]; rewrite E;
    cbn [fst snd recusa aceita]; [reflexivity|].
  destruct t; reflexivity.
Qed.

Lemma registro_de_tipo (t : Transacao A) (w : Mundo A) :
  tipo (registro_de t w) = "Saque"%string \/
  tipo (registro_de t w) = "Deposito"%string.
Proof. destruct t; [left|right]; reflexivity. Qed.

(** X1. A history only grows, at its end: after any sequence of
    [registrar] calls the former history is a prefix of the new one; the
    records added are as many as the calls that succeeded, each is a
    ["Saque"] or a ["Deposito"], the clock was read once per record and the
    records carry the successive readings. *)
Theorem historico_so_cresce (ts : list (Transacao A)) :
  forall w : Mundo A,
  exists novos : list (Registro A),
    transacoes (historico (conta (registrar_todas ts w))) =
      transacoes (historico (conta w)) ++ novos /\
    length novos = sucessos ts w /\
    tique (registrar_todas ts w) = (tique w + length novos)%nat /\
    map (@data A) novos = map (agora w) (seq (tique w) (length novos)) /\
    Forall (fun r => tipo r = "Saque"%string \/ tipo r = "Deposito"%string)
           novos.
Proof.
  induction ts as [|t ts IH]; intros w; cbn [registrar_todas sucessos].
  - exists []. rewrite app_nil_r, Nat.add_0_r. repeat split. constructor.
  - destruct (IH (snd (registrar t w))) as (novos & Ht & Hl & Hq & Hd & Hf).
    destruct (registrar_relogio t w) as [Ha Hk].
    rewrite Ha, Hk in Hd. rewrite Hk in Hq.
    rewrite registrar_transacoes in Ht.
    destruct (fst (operar t w)).
    + exists (registro_de t w :: novos). cbn [length map seq].
      split; [now rewrite Ht, <- app_assoc|].
      split; [now rewrite Hl|].
      split; [rewrite Hq; lia|].
      split; [now rewrite Hd|].
      constructor; [apply registro_de_tipo | exact Hf].
    + exists novos. repeat split; assumption.
Qed.

Lemma reproduzir_registrar_todas (ts : list (Transacao A)) :
  forall w : Mundo A,
  exists novos : list (Registro A),
    transacoes (historico (conta (registrar_todas ts w))) =
      transacoes (historico (conta w)) ++ novos /\
    saldo (conta (registrar_todas ts w)) =
      reproduzir novos (saldo (conta w)).
Proof.
  induction ts as [|t ts IH]; intros w; cbn [registrar_todas].
  - exists []. now rewrite app_nil_r.
  - destruct (IH (snd (registrar t w))) as (novos & Ht & Hs).
    rewrite Ht, Hs, registrar_transacoes, registrar_saldo.
    destruct (fst (operar t w)).
    + exists (registro_de t w :: novos). now rewrite <- app_assoc.
    + now exists novos.
Qed.

(** X2. The balance is what the history says: on an account used only
    through [registrar] since its history was empty, replaying the records
    in order on the balance it had then ([-] for a ["Saque"], [+] for any
    other record) gives the balance it has now; the amounts are combined
    with the same operations in the same order, so this is exact on [float]
    as well. *)
Theorem saldo_reproduz_historico (w : Mundo A) (ts : list (Transacao A)) :
  transacoes (historico (conta w)) = [] ->
  saldo (conta (registrar_todas ts w)) =
    reproduzir (transacoes (historico (conta (registrar_todas ts w))))
               (saldo (conta w)).
Proof.
  intros Hw. destruct (reproduzir_registrar_todas ts w) as (novos & Ht & Hs).
  rewrite Ht, Hw, Hs. reflexivity.
Qed.

(** What a direct call of [sacar] or [depositar] leaves of the account:
    everything but the balance. *)
Lemma chamar_resto (c : Chamada A) (w : Mundo A) :
  classe (conta (snd (chamar c w))) = classe (conta w) /\
  numero (conta (snd (chamar c w))) = numero (conta w) /\
  agencia (conta (snd (chamar c w))) = agencia (conta w) /\
  cliente (conta (snd (chamar c w))) = cliente (conta w) /\
  historico (conta (snd (chamar c w))) = historico (conta w) /\
  agora (snd (chamar c w)) = agora w /\
  tique (snd (chamar c w)) = tique w.
Proof.
  assert (E : chamar c w =
              operar (match c with
                      | ChSacar v => Saque v
                      | ChDepositar v => Deposito v
                      end) w) by (destruct c; reflexivity).
  rewrite E.
  destruct (operar_recusa_ou_aceita
              (match c with
               | ChSacar v => Saque v
               | ChDepositar v => Deposito v
               end) w) as [[msg E']|[msg E']]; rewrite E';
    repeat split; reflexivity.
Qed.

(** X3. Calling [sacar] and [depositar] directly, not through a
    transaction, never records anything: after any sequence of such calls
    the history, the clock and the class, number, branch and owner of the
    account are what they were.  On a [ContaCorrente] such withdrawals thus
    never count against [limite_saques]. *)
Theorem chamadas_diretas_nao_registram (cs : list (Chamada A)) :
  forall w : Mundo A,
    historico (conta (chamar_todas cs w)) = historico (conta w) /\
    classe (conta (chamar_todas cs w)) = classe (conta w) /\
    numero (conta (chamar_todas cs w)) = numero (conta w) /\
    agencia (conta (chamar_todas cs w)) = agencia (conta w) /\
    cliente (conta (chamar_todas cs w)) = cliente (conta w) /\
    tique (chamar_todas cs w) = tique w.
Proof.
  induction cs as [|c cs IH]; intros w; cbn [chamar_todas].
  - repeat split.
  - destruct (IH (snd (chamar c w))) as (Hh & Hc & Hn & Ha & Hl & Hk).
    destruct (chamar_resto c w) as (Hc' & Hn' & Ha' & Hl' & Hh' & _ & Hk').
    rewrite Hh, Hc, Hn, Ha, Hl, Hk. repeat split; assumption.
Qed.

(** X4. The quota of a [ContaCorrente] is never given back: once the
    history holds [limite_saques] withdrawals or more, no later [Saque]
    applied through [registrar] succeeds, however many deposits come in
    between, and the number of recorded withdrawals stays what it is. *)
Theorem quota_esgotada_para_sempre (ts : list (Transacao A)) :
  forall (w : Mundo A) (cc : Corrente A),
    classe (conta w) = ClasseContaCorrente cc ->
    (limite_saques cc
     <= conta_saques (transacoes (historico (conta w))))%nat ->
    saques_bem_sucedidos ts w = O /\
    conta_saques (transacoes (historico (conta (registrar_todas ts w)))) =
      conta_saques (transacoes (historico (conta w))).
Proof.
  assert (Hz : forall (w : Mundo A) (cc : Corrente A),
             classe (conta w) = ClasseContaCorrente cc ->
             (limite_saques cc
              <= conta_saques (transacoes (historico (conta w))))%nat ->
             saques_bem_sucedidos ts w = O).
  { induction ts as [|t ts IH]; intros w cc Hc Hq;
      cbn [saques_bem_sucedidos]; [reflexivity|].
    assert (Hq' : (limite_saques cc
                   <= conta_saques
                        (transacoes
                           (historico (conta (snd (registrar t w))))))%nat).
    { rewrite registrar_transacoes.
      destruct (fst (operar t w)); [|exact Hq].
      rewrite conta_saques_app. lia. }
    rewrite (IH (snd (registrar t w)) cc) by
      (try exact Hq'; now rewrite registrar_classe).
    destruct t as [v|v]; [|reflexivity].
    unfold sacar. rewrite Hc, ContaCorrente_sacar_casos.
    destruct (v >? limite cc); [reflexivity|].
    apply Nat.leb_le in Hq. rewrite Hq. reflexivity. }
  intros w cc Hc Hq. split; [now apply (Hz w cc)|].
  rewrite registrar_todas_conta_saques, (Hz w cc) by assumption. lia.
Qed.

(** X5. What holds of an account however it was used since it was
    created, directly or through transactions: its branch is ["0001"],
    the clock was read exactly once per record of its history, and on a
    [ContaCorrente] the history holds at most [limite_saques]
    withdrawals. *)
Theorem invariantes_da_conta (w : Mundo A) :
  alcancavel w ->
  agencia (conta w) = "0001"%string /\
  tique w = length (transacoes (historico (conta w))) /\
  (forall cc : Corrente A,
     classe (conta w) = ClasseContaCorrente cc ->
     (conta_saques (transacoes (historico (conta w)))
      <= limite_saques cc)%nat).
Proof.
  induction 1 as [n c r|n c l ls r|w v _ IH|w v _ IH|w t _ IH].
  - repeat split. intros cc Hc. discriminate Hc.
  - repeat split. intros cc Hc. cbn in *. lia.
  - destruct (chamar_resto (ChSacar v) w) as (Hc & _ & Ha & _ & Hh & _ & Hk).
    cbn [chamar] in *. rewrite Ha, Hk, Hh, Hc. exact IH.
  - destruct (chamar_resto (ChDepositar v) w)
      as (Hc & _ & Ha & _ & Hh & _ & Hk).
    cbn [chamar] in *. rewrite Ha, Hk, Hh, Hc. exact IH.
  - destruct IH as (Ha & Hk & Hq).
    destruct (registrar_relogio t w) as [_ Hk'].
    rewrite registrar_classe. repeat split.
    + rewrite registrar_operar.
      destruct (operar_recusa_ou_aceita t w) as [[msg E]|[msg E]];
        rewrite E; exact Ha.
    + rewrite Hk', registrar_transacoes.
      destruct (fst (operar t w)); [|exact Hk].
      rewrite length_app. cbn [length]. lia.
    + intros cc Hc. now apply registrar_dentro_do_limite; [|apply Hq].
Qed.

End Historia.

(** * A NaN balance *)

Lemma is_nan_Prim2SF (x : float) :
  PrimFloat.is_nan x = true <-> Prim2SF x = S754_nan.
Proof.
  unfold PrimFloat.is_nan. rewrite FloatAxioms.eqb_spec.
  unfold SFeqb, SFcompare.
  destruct (Prim2SF x) as [s|[|]| |[|] m e]; cbn [negb];
    rewrite ?Z.compare_refl, ?Pcompare_refl; cbn [CompOpp negb];
    split; intros E; try reflexivity; discriminate E.
Qed.

Lemma nan_soma (s v : float) :
  PrimFloat.is_nan s = true \/ PrimFloat.is_nan v = true ->
  PrimFloat.is_nan (PrimFloat.add s v) = true.
Proof.
  rewrite !is_nan_Prim2SF, FloatAxioms.add_spec.
  intros [E|E]; rewrite E; [reflexivity|].
  destruct (Prim2SF s) as [?|?| |? ? ?]; reflexivity.
Qed.

Lemma nan_subtrai (s v : float) :
  PrimFloat.is_nan s = true ->
  PrimFloat.is_nan (PrimFloat.sub s v) = true.
Proof.
  rewrite !is_nan_Prim2SF, FloatAxioms.sub_spec.
  intros E; rewrite E; reflexivity.
Qed.

Lemma nan_nao_compara (s v : float) :
  PrimFloat.is_nan s = true ->
  PrimFloat.ltb s v = false /\ PrimFloat.leb s v = false.
Proof.
  rewrite is_nan_Prim2SF, FloatAxioms.ltb_spec, FloatAxioms.leb_spec.
  intros E; rewrite E; split; reflexivity.
Qed.

(** X6. On [float] amounts a NaN gets through the amount test of
    [depositar] ([nan <= 0] is false) and makes the balance NaN; a NaN
    balance stays NaN whatever [sacar] or [depositar] call comes next; and
    on a base [Conta] with a NaN balance every [sacar] of an amount that is
    not [<= 0] is accepted, since no amount is above NaN. *)
Theorem saldo_nan_e_para_sempre :
  (forall (w : Mundo float) (v : float),
     PrimFloat.is_nan v = true ->
     fst (depositar v w) = true /\
     PrimFloat.is_nan (saldo (conta (snd (depositar v w)))) = true) /\
  (forall (w : Mundo float) (c : Chamada float),
     PrimFloat.is_nan (saldo (conta w)) = true ->
     PrimFloat.is_nan (saldo (conta (snd (chamar c w)))) = true) /\
  (forall (w : Mundo float) (v : float),
     classe (conta w) = ClasseConta ->
     PrimFloat.is_nan (saldo (conta w)) = true ->
     menor_igual v (de_int 0) = false ->
     fst (sacar v w) = true).
Proof.
  split; [|split].
  - intros w v Hv. unfold depositar. rewrite Conta_depositar_casos.
    destruct (nan_nao_compara v PrimFloat.zero Hv) as [_ Hle].
    cbn [menor_igual de_int PyNum_float float_de_int]. rewrite Hle.
    split; [reflexivity|]. cbn [aceita snd conta saldo soma PyNum_float].
    apply nan_soma. now right.
  - intros w c Hs. destruct c as [v|v]; cbn [chamar].
    + unfold sacar. destruct (classe (conta w)) as [|cc];
        rewrite ?ContaCorrente_sacar_casos, Conta_sacar_casos;
        repeat match goal with
               | |- context [if ?b then _ else _] => destruct b
               end; try exact Hs;
        cbn [aceita snd conta saldo subtrai PyNum_float];
        now apply nan_subtrai.
    + unfold depositar. rewrite Conta_depositar_casos.
      destruct (menor_igual v (de_int 0)); [exact Hs|].
      cbn [aceita snd conta saldo soma PyNum_float].
      apply nan_soma. now left.
  - intros w v Hc Hs Hv. unfold sacar. rewrite Hc, Conta_sacar_casos, Hv.
    destruct (nan_nao_compara (saldo (conta w)) v Hs) as [Hlt _].
    cbn [maior PyNum_float]. rewrite Hlt. reflexivity.
Qed.

(** * The command handlers of [Desafio_02.py] *)

(** X7. [buscar_cliente_por_cpf] returns the first client of the list with
    the given CPF, so with a duplicated CPF the earlier client wins, and
    returns [None] exactly when no client has it. *)
Theorem buscar_cliente_primeiro (c : string) (clientes : list PessoaFisica) :
  match buscar_cliente_por_cpf c clientes with
  | Some cl =>
      cpf cl = c /\
      exists antes depois : list PessoaFisica,
        clientes = (antes ++ cl :: depois)%list /\
        forall x : PessoaFisica, In x antes -> cpf x <> c
  | None => forall x : PessoaFisica, In x clientes -> cpf x <> c
  end.
Proof.
  unfold buscar_cliente_por_cpf.
  induction clientes as [|y l IH]; cbn [find].
  - intros x [].
  - destruct (String.eqb (cpf y) c) eqn:E.
    + apply String.eqb_eq in E. split; [exact E|].
      exists [], l. split; [reflexivity|]. intros x [].
    + apply String.eqb_neq in E.
      destruct (find (fun cliente => String.eqb (cpf cliente) c) l) as [cl|].
      * destruct IH as (Hc & antes & depois & Hl & Hn).
        split; [exact Hc|]. exists (y :: antes), depois.
        split; [now rewrite Hl|].
        intros x [Hx|Hx]; [now subst x|now apply Hn].
      * intros x [Hx|Hx]; [now subst x|now apply IH].
Qed.

Section Manipuladores.
Context {A : Type} `{PyNum A}.
Variable float_de_str : string -> option A.
Variable formato_2f : A -> string.
Local Open Scope list_scope.

(** X8. [recuperar_primeira_conta] after [adicionar_conta] never fails and
    prints nothing: it returns the account the client already had first,
    and the added one only when the client had none.  Accounts added later
    are never the one the handlers use. *)
Theorem primeira_conta_apos_adicionar (cliente : PessoaFisica) (a : nat)
        (e : Estado A) :
  recuperar_primeira_conta (adicionar_conta cliente a) e =
    (Ok (Some (hd a (contas cliente))), e).
Proof.
  unfold recuperar_primeira_conta, adicionar_conta. cbn [contas].
  destruct (contas cliente); reflexivity.
Qed.

Lemma com_console_app (e : Estado A) (r1 r2 n1 n2 : list string) :
  com_console (com_console e r1 n1) r2 n2 = com_console e r2 (n1 ++ n2).
Proof. unfold com_console. cbn. now rewrite <- app_assoc. Qed.

Lemma input_linha (e : Estado A) (p linha : string) (resto : list string) :
  entrada e = linha :: resto ->
  input p e = (Ok linha, com_console e resto [p]).
Proof. intros He. unfold input. rewrite He. reflexivity. Qed.

Lemma input_linha_cc (e : Estado A) (p linha : string)
      (r resto n : list string) :
  r = linha :: resto ->
  input p (com_console e r n) = (Ok linha, com_console e resto (n ++ [p])).
Proof.
  intros Hr. rewrite (input_linha _ p linha resto) by (now subst r).
  now rewrite com_console_app.
Qed.

Lemma manipuladores_sem_cliente (e : Estado A) (c : string)
      (resto : list string) :
  entrada e = c :: resto ->
  buscar_cliente_por_cpf c (main_clientes e) = None ->
  processar_deposito float_de_str e =
    (Ok tt, com_console e resto [prompt_cpf; msg_cliente_nao_encontrado]) /\
  processar_saque float_de_str e =
    (Ok tt, com_console e resto [prompt_cpf; msg_cliente_nao_encontrado]) /\
  exibir_extrato formato_2f e =
    (Ok tt, com_console e resto [prompt_cpf; msg_cliente_nao_encontrado]).
Proof.
  intros He Hb.
  unfold processar_deposito, processar_saque, exibir_extrato, bind_s.
  rewrite (input_linha e _ c resto He).
  cbn [main_clientes com_console]. rewrite Hb.
  repeat split; unfold imprimir, com_console; cbn;
    now rewrite <- app_assoc.
Qed.

(** X9. With a CPF that no client has, the three handlers do the same
    thing: they read that one line, write the prompt and the not-found
    message, and leave clients, accounts and everything not yet read as
    they were. *)
Theorem cpf_desconhecido (e : Estado A) (c : string) (resto : list string) :
  entrada e = c :: resto ->
  buscar_cliente_por_cpf c (main_clientes e) = None ->
  processar_deposito float_de_str e =
    (Ok tt, com_console e resto [prompt_cpf; msg_cliente_nao_encontrado]) /\
  processar_saque float_de_str e =
    (Ok tt, com_console e resto [prompt_cpf; msg_cliente_nao_encontrado]) /\
  exibir_extrato formato_2f e =
    (Ok tt, com_console e resto [prompt_cpf; msg_cliente_nao_encontrado]).
Proof.
  intros He Hb.
  unfold processar_deposito, processar_saque, exibir_extrato, bind_s.
  rewrite (input_linha e _ c resto He).
  cbn [main_clientes com_console]. rewrite Hb.
  repeat split; unfold imprimir, com_console; cbn;
    now rewrite <- app_assoc.
Qed.

(** X10. The amount is read and converted before the account is looked
    for: when the client exists and the line typed for the amount is not a
    number, [processar_deposito] and [processar_saque] raise [ValueError]
    on that line, whether the client has an account or not, and no account
    is touched. *)
Theorem valor_ilegivel (e : Estado A) (c s : string) (resto : list string)
        (cl : PessoaFisica) :
  entrada e = c :: s :: resto ->
  buscar_cliente_por_cpf c (main_clientes e) = Some cl ->
  float_de_str s = None ->
  processar_deposito float_de_str e =
    (Levanta (ValueError s),
     com_console e resto [prompt_cpf; prompt_deposito]) /\
  processar_saque float_de_str e =
    (Levanta (ValueError s), com_console e resto [prompt_cpf; prompt_saque]).
Proof.
  intros He Hb Hf.
  unfold processar_deposito, processar_saque, bind_s.
  rewrite (input_linha e _ c (s :: resto) He).
  cbn [main_clientes com_console]. rewrite Hb.
  fold (com_console e (s :: resto) [prompt_cpf]).
  rewrite !(input_linha_cc e _ s (s :: resto) resto) by reflexivity.
  unfold float_. rewrite Hf. split; reflexivity.
Qed.

(** X11. For a client without an account, with a readable amount, the two
    handlers write the no-account message and change nothing: the amount
    is dropped. *)
Theorem cliente_sem_conta (e : Estado A) (c s : string)
        (resto : list string) (cl : PessoaFisica) (v : A) :
  entrada e = c :: s :: resto ->
  buscar_cliente_por_cpf c (main_clientes e) = Some cl ->
  float_de_str s = Some v ->
  contas cl = [] ->
  processar_deposito float_de_str e =
    (Ok tt,
     com_console e resto [prompt_cpf; prompt_deposito; msg_sem_conta]) /\
  processar_saque float_de_str e =
    (Ok tt, com_console e resto [prompt_cpf; prompt_saque; msg_sem_conta]).
Proof.
  intros He Hb Hf Hc.
  unfold processar_deposito, processar_saque, bind_s.
  rewrite (input_linha e _ c (s :: resto) He).
  cbn [main_clientes com_console]. rewrite Hb.
  fold (com_console e (s :: resto) [prompt_cpf]).
  rewrite !(input_linha_cc e _ s (s :: resto) resto) by reflexivity.
  unfold float_. rewrite Hf. unfold ret_s, recuperar_primeira_conta.
  rewrite Hc. unfold bind_s, imprimir, ret_s, com_console. cbn.
  rewrite <- !app_assoc. split; reflexivity.
Qed.

Lemma substituir_length {X : Type} (n : nat) (x : X) (l : list X) :
  length (substituir n x l) = length l.
Proof.
  revert n; induction l as [|y l IH]; intros [|n]; cbn; auto.
Qed.

Lemma substituir_nth_error {X : Type} (n : nat) (x y : X) (l : list X) :
  nth_error l n = Some y -> nth_error (substituir n x l) n = Some x.
Proof.
  revert n; induction l as [|z l IH]; intros [|n]; cbn; intros E;
    try discriminate E; auto.
Qed.

Lemma substituir_outro {X : Type} (n b : nat) (x : X) (l : list X) :
  b <> n -> nth_error (substituir n x l) b = nth_error l b.
Proof.
  revert n b; induction l as [|z l IH]; intros [|n] [|b] Hb; cbn; auto;
    contradiction.
Qed.

Lemma substituir_mesmo {X : Type} (n : nat) (x : X) (l : list X) :
  nth_error l n = Some x -> substituir n x l = l.
Proof.
  revert n; induction l as [|z l IH]; intros [|n]; cbn; intros E;
    try discriminate E.
  - now injection E as ->.
  - now rewrite IH.
Qed.

Lemma na_conta_registrar (e : Estado A) (a : nat) (ct : Conta A)
      (t : Transacao A) (resto novas : list string) :
  nth_error (objetos e) a = Some ct ->
  fst (na_conta a (realizar_transacao t) (com_console e resto novas))
    = Ok tt /\
  so_a_conta e
    (snd (na_conta a (realizar_transacao t) (com_console e resto novas)))
    a (snd (registrar t (mundo_da_conta e ct novas))) resto.
Proof.
  intros Hn. unfold na_conta, realizar_transacao.
  cbn [com_console objetos saida relogio leituras]. rewrite Hn.
  fold (mundo_da_conta e ct novas). cbn [fst snd].
  destruct (registrar_relogio t (mundo_da_conta e ct novas)) as [Ha _].
  split; [now destruct (fst (registrar t (mundo_da_conta e ct novas)))|].
  unfold so_a_conta.
  cbn [main_clientes main_contas entrada saida relogio leituras objetos].
  repeat split.
  - exact Ha.
  - apply substituir_length.
  - now apply substituir_nth_error with (y := ct).
  - intros b Hb. now apply substituir_outro.
Qed.

(** X12. For a client with accounts and a readable amount, the two
    handlers apply the transaction to the first account of the client and
    to nothing else: that account ends as [registrar] leaves it, whatever
    [registrar] printed is on the console, and every other account of the
    store, the client's other accounts among them, is as it was. *)
Theorem so_a_primeira_conta (e : Estado A) (c s : string)
        (resto : list string) (cl : PessoaFisica) (v : A) (a : nat)
        (outras : list nat) (ct : Conta A) :
  entrada e = c :: s :: resto ->
  buscar_cliente_por_cpf c (main_clientes e) = Some cl ->
  float_de_str s = Some v ->
  contas cl = a :: outras ->
  nth_error (objetos e) a = Some ct ->
  (fst (processar_deposito float_de_str e) = Ok tt /\
   so_a_conta e (snd (processar_deposito float_de_str e)) a
     (snd (registrar (Deposito v)
             (mundo_da_conta e ct [prompt_cpf; prompt_deposito])))
     resto) /\
  (fst (processar_saque float_de_str e) = Ok tt /\
   so_a_conta e (snd (processar_saque float_de_str e)) a
     (snd (registrar (Saque v)
             (mundo_da_conta e ct [prompt_cpf; prompt_saque])))
     resto).
Proof.
  intros He Hb Hf Hc Hn.
  unfold processar_deposito, processar_saque, bind_s.
  rewrite (input_linha e _ c (s :: resto) He).
  cbn [main_clientes com_console]. rewrite Hb.
  fold (com_console e (s :: resto) [prompt_cpf]).
  rewrite !(input_linha_cc e _ s (s :: resto) resto) by reflexivity.
  unfold float_. rewrite Hf. unfold ret_s, recuperar_primeira_conta.
  rewrite Hc. unfold ret_s.
  split.
  - destruct (na_conta_registrar e a ct (Deposito v) resto
                ([prompt_cpf] ++ ["Informe o valor do depósito: "%string])
                Hn) as [H1 H2].
    destruct (na_conta a _ _) as [r e']. cbn [fst snd] in *.
    split; assumption.
  - destruct (na_conta_registrar e a ct (Saque v) resto
                ([prompt_cpf] ++ ["Informe o valor do saque: "%string])
                Hn) as [H1 H2].
    destruct (na_conta a _ _) as [r e']. cbn [fst snd] in *.
    split; assumption.
Qed.

End Manipuladores.

Section Extrato.
Context {A : Type} `{PyNum A}.
Variable float_de_str : string -> option A.
Variable formato_2f : A -> string.
Local Open Scope list_scope.

Lemma mesmo_banco_refl (e : Estado A) : mesmo_banco e e.
Proof. repeat split. Qed.

Lemma mesmo_banco_trans (e1 e2 e3 : Estado A) :
  mesmo_banco e1 e2 -> mesmo_banco e2 e3 -> mesmo_banco e1 e3.
Proof.
  intros (a1 & a2 & a3 & a4 & a5) (b1 & b2 & b3 & b4 & b5).
  repeat split; congruence.
Qed.

Lemma so_console_bind {R S : Type} (m : Shell (Estado A) R)
      (k : R -> Shell (Estado A) S) :
  so_console m -> (forall r, so_console (k r)) -> so_console (bind_s m k).
Proof.
  intros Hm Hk e. unfold bind_s. specialize (Hm e).
  destruct (m e) as [[r|x] e1]; cbn [snd] in *.
  - eapply mesmo_banco_trans; [exact Hm | apply Hk].
  - exact Hm.
Qed.

Lemma so_console_ret {R : Type} (r : R) : so_console (A:=A) (ret_s r).
Proof. intros e. apply mesmo_banco_refl. Qed.

Lemma so_console_imprimir (s : string) : so_console (A:=A) (imprimir s).
Proof. intros e. repeat split. Qed.

Lemma so_console_input (p : string) : so_console (A:=A) (input p).
Proof. intros e. unfold input. destruct (entrada e); repeat split. Qed.

Lemma so_console_na_conta {R : Type} (a : nat) (m : Prog (Mundo A) R) :
  (forall w : Mundo A, snd (m w) = w) -> so_console (na_conta a m).
Proof.
  intros Hm e. unfold na_conta.
  destruct (nth_error (objetos e) a) as [c|] eqn:E; cbn [snd].
  - rewrite Hm. repeat split. cbn. now apply substituir_mesmo.
  - apply mesmo_banco_refl.
Qed.

Lemma so_console_imprimir_transacoes (ts : list (Registro A)) :
  so_console (imprimir_transacoes formato_2f ts).
Proof.
  induction ts as [|t ts IH]; cbn [imprimir_transacoes].
  - apply so_console_ret.
  - apply so_console_bind; [apply so_console_imprimir | intros _; exact IH].
Qed.

(** X13. [exibir_extrato] only reads and prints: in every state and for
    every input, whether it ends normally or not, the clients, the account
    lists, every account of the store and the clock are what they were. *)
Theorem extrato_so_le : so_console (exibir_extrato formato_2f).
Proof.
  unfold exibir_extrato.
  apply so_console_bind; [apply so_console_input | intros c].
  apply so_console_bind; [intros e; apply mesmo_banco_refl | intros cls].
  destruct (buscar_cliente_por_cpf c cls) as [cl|];
    [|apply so_console_imprimir].
  apply so_console_bind.
  { unfold recuperar_primeira_conta. destruct (contas cl).
    - apply so_console_bind;
        [apply so_console_imprimir | intros _; apply so_console_ret].
    - apply so_console_ret. }
  intros [a|]; [|apply so_console_ret].
  apply so_console_bind; [apply so_console_imprimir | intros _].
  apply so_console_bind;
    [apply so_console_na_conta; reflexivity | intros ts].
  apply so_console_bind.
  { destruct ts; [apply so_console_imprimir
                 | apply so_console_imprimir_transacoes]. }
  intros _.
  apply so_console_bind;
    [apply so_console_na_conta; reflexivity | intros s].
  apply so_console_bind; [apply so_console_imprimir | intros _].
  apply so_console_imprimir.
Qed.

Lemma imprimir_transacoes_saida (ts : list (Registro A)) (e : Estado A) :
  imprimir_transacoes formato_2f ts e =
    (Ok tt,
     com_console e (entrada e)
       (map (fun t => (tipo t ++ ": R$ " ++ formato_2f (valor_reg t)
                       ++ " em " ++ data t)%string) ts)).
Proof.
  revert e; induction ts as [|t ts IH]; intros e;
    cbn [imprimir_transacoes map].
  - unfold ret_s, com_console. rewrite app_nil_r. now destruct e.
  - unfold bind_s, imprimir. rewrite IH. unfold com_console. cbn.
    now rewrite <- app_assoc.
Qed.

(** X14. What [exibir_extrato] prints for a client with an account: the
    header, then one line per record of the first account's history, in
    the order of the history, with type, amount and date, or a single
    no-movement line when the history is empty, then the balance and the
    footer. *)
Theorem extrato_lista_o_historico (e : Estado A) (c : string)
        (resto : list string) (cl : PessoaFisica) (a : nat)
        (outras : list nat) (ct : Conta A) :
  entrada e = c :: resto ->
  buscar_cliente_por_cpf c (main_clientes e) = Some cl ->
  contas cl = a :: outras ->
  nth_error (objetos e) a = Some ct ->
  exibir_extrato formato_2f e =
    (Ok tt,
     com_console e resto
       ([prompt_cpf;
         (nl ++ "================ EXTRATO ================")%string]
        ++ match transacoes (historico ct) with
           | [] => ["Nenhuma movimentação registrada."%string]
           | _ :: _ =>
               map (fun t => (tipo t ++ ": R$ " ++ formato_2f (valor_reg t)
                              ++ " em " ++ data t)%string)
                   (transacoes (historico ct))
           end
        ++ [(nl ++ "Saldo: R$ " ++ formato_2f (saldo ct))%string;
            "=========================================="%string])).
Proof.
  intros He Hb Hc Hn.
  unfold exibir_extrato, bind_s.
  rewrite (input_linha e _ c resto He). unfold com_console.
  cbn [main_clientes]. rewrite Hb.
  unfold recuperar_primeira_conta. rewrite Hc. unfold ret_s.
  unfold imprimir at 1. cbn [main_clientes main_contas objetos entrada
    saida relogio leituras].
  unfold na_conta at 1. cbn [objetos]. rewrite Hn.
  unfold ler_transacoes. cbn [fst snd conta stdout agora tique saida
    relogio leituras main_clientes main_contas entrada].
  rewrite (substituir_mesmo a ct (objetos e) Hn).
  destruct (transacoes (historico ct)) as [|t ts] eqn:Et.
  - unfold imprimir at 1. cbn [main_clientes main_contas objetos entrada
      saida relogio leituras].
    unfold na_conta. cbn [objetos]. rewrite Hn. unfold ler_saldo.
    cbn [fst snd conta stdout agora tique saida relogio leituras
         main_clientes main_contas entrada].
    rewrite (substituir_mesmo a ct (objetos e) Hn).
    unfold imprimir. cbn. now rewrite <- !app_assoc.
  - rewrite imprimir_transacoes_saida. unfold com_console.
    cbn [main_clientes main_contas objetos entrada saida relogio leituras].
    unfold na_conta. cbn [objetos]. rewrite Hn. unfold ler_saldo.
    cbn [fst snd conta stdout agora tique saida relogio leituras
         main_clientes main_contas entrada].
    rewrite (substituir_mesmo a ct (objetos e) Hn).
    unfold imprimir. cbn. now rewrite <- !app_assoc.
Qed.

Lemma mesma_estrutura_refl (e : Estado A) : mesma_estrutura e e.
Proof. repeat split. Qed.

Lemma mesma_estrutura_bind {R S : Type} (m : Shell (Estado A) R)
      (k : R -> Shell (Estado A) S) :
  (forall e, mesma_estrutura e (snd (m e))) ->
  (forall r e, mesma_estrutura e (snd (k r e))) ->
  forall e, mesma_estrutura e (snd (bind_s m k e)).
Proof.
  intros Hm Hk e. unfold bind_s. specialize (Hm e).
  destruct (m e) as [[r|x] e1]; cbn [snd] in *; [|exact Hm].
  destruct Hm as (a1 & a2 & a3). destruct (Hk r e1) as (b1 & b2 & b3).
  repeat split; congruence.
Qed.

Lemma mesma_estrutura_input (p : string) (e : Estado A) :
  mesma_estrutura e (snd (input p e)).
Proof. unfold input. destruct (entrada e); repeat split. Qed.

Lemma mesma_estrutura_na_conta {R : Type} (a : nat) (m : Prog (Mundo A) R)
      (e : Estado A) :
  mesma_estrutura e (snd (na_conta a m e)).
Proof.
  unfold na_conta. destruct (nth_error (objetos e) a); cbn [snd].
  - repeat split. cbn. apply substituir_length.
  - apply mesma_estrutura_refl.
Qed.

Lemma mesma_estrutura_transacao (p : string) (t : A -> Transacao A)
      (cl : PessoaFisica) (e : Estado A) :
  mesma_estrutura e
    (snd (bind_s (input p)
            (fun s =>
               bind_s (float_ float_de_str s)
                 (fun valor =>
                    bind_s (recuperar_primeira_conta cl)
                      (fun conta =>
                         match conta with
                         | Some a => na_conta a (realizar_transacao (t valor))
                         | None => ret_s tt
                         end))) e)).
Proof.
  revert e. apply mesma_estrutura_bind; [apply mesma_estrutura_input|].
  intros s. apply mesma_estrutura_bind.
  { intros e. unfold float_. destruct (float_de_str s); repeat split. }
  intros v. apply mesma_estrutura_bind.
  { intros e. unfold recuperar_primeira_conta.
    destruct (contas cl); repeat split. }
  intros [a|] e; [apply mesma_estrutura_na_conta | repeat split].
Qed.

(** X15. [processar_deposito] and [processar_saque] never create, remove
    or re-link anything: in every state and for every input, whether they
    end normally or not, the list of clients, the list of accounts and the
    number of stored accounts are what they were. *)
Theorem manipuladores_mantem_estrutura (e : Estado A) :
  mesma_estrutura e (snd (processar_deposito float_de_str e)) /\
  mesma_estrutura e (snd (processar_saque float_de_str e)).
Proof.
  split; revert e.
  - unfold processar_deposito.
    apply mesma_estrutura_bind; [apply mesma_estrutura_input | intros c].
    apply mesma_estrutura_bind; [intros e; repeat split | intros cls].
    destruct (buscar_cliente_por_cpf c cls) as [cl|];
      [|intros e; repeat split].
    intros e. apply (mesma_estrutura_transacao _ (@Deposito A)).
  - unfold processar_saque.
    apply mesma_estrutura_bind; [apply mesma_estrutura_input | intros c].
    apply mesma_estrutura_bind; [intros e; repeat split | intros cls].
    destruct (buscar_cliente_por_cpf c cls) as [cl|];
      [|intros e; repeat split].
    intros e. apply (mesma_estrutura_transacao _ (@Saque A)).
Qed.

End Extrato.

(** * A whole run of [Desafio_02.main] *)

Section Execucao.
Context {A : Type} `{PyNum A}.
Variable float_de_str : string -> option A.
Variable formato_2f : A -> string.
Local Open Scope list_scope.

(** In a bank without clients a handler either finds nothing to read, or
    reads one line and reports that the client was not found. *)
Lemma manipulador_em_banco_vazio (h : Shell (Estado A) unit) (e : Estado A) :
  h = processar_deposito float_de_str \/ h = processar_saque float_de_str \/
  h = exibir_extrato formato_2f ->
  banco_vazio e ->
  banco_vazio (snd (h e)) /\
  relogio (snd (h e)) = relogio e /\
  ((fst (h e) = Ok tt /\
    S (length (entrada (snd (h e)))) = length (entrada e)) \/
   (fst (h e) = Levanta EOFError /\ entrada e = [])).
Proof.
  intros Hh (Hc & Hm & Ho & Hl).
  destruct (entrada e) as [|c resto] eqn:He.
  - assert (E : h e = (Levanta EOFError,
                       mkEstado (main_clientes e) (main_contas e) (objetos e)
                                [] (saida e ++ [prompt_cpf]) (relogio e)
                                (leituras e))).
    { destruct Hh as [->|[->| ->]];
        unfold processar_deposito, processar_saque, exibir_extrato, bind_s,
          input; rewrite He; reflexivity. }
    rewrite E. cbn [fst snd]. repeat split; try assumption. now right.
  - assert (Hb : buscar_cliente_por_cpf c (main_clientes e) = None)
      by (now rewrite Hc).
    destruct (manipuladores_sem_cliente float_de_str formato_2f e c resto
                He Hb) as (E1 & E2 & E3).
    assert (E : h e = (Ok tt, com_console e resto
                                [prompt_cpf; msg_cliente_nao_encontrado]))
      by (destruct Hh as [->|[->| ->]]; assumption).
    rewrite E. cbn [fst snd com_console]. repeat split; try assumption.
    now left.
Qed.

Lemma main_iteracao_em_banco_vazio (e : Estado A) :
  banco_vazio e ->
  banco_vazio (snd (main_iteracao float_de_str formato_2f e)) /\
  relogio (snd (main_iteracao float_de_str formato_2f e)) = relogio e /\
  match fst (main_iteracao float_de_str formato_2f e) with
  | Ok true =>
      (length (entrada (snd (main_iteracao float_de_str formato_2f e)))
       < length (entrada e))%nat
  | Ok false => True
  | Levanta x => desfecho_de_main (Levanta x)
  end.
Proof.
  intros Hv. pose proof Hv as (Hc & Hm & Ho & Hl).
  destruct (main_iteracao float_de_str formato_2f e) as [r e1] eqn:E.
  unfold main_iteracao, mostrar_menu, bind_s at 1 in E.
  cbn [fst snd].
  destruct (entrada e) as [|opcao resto] eqn:He.
  - unfold input in E. rewrite He in E. injection E as <- <-.
    unfold banco_vazio.
    cbn [main_clientes main_contas objetos leituras relogio].
    repeat split; try assumption. right. now left.
  - rewrite (input_linha e _ opcao resto He) in E.
    assert (Hv' : banco_vazio (com_console e resto [menu_text]))
      by (repeat split; assumption).
    assert (Hh : forall h : Shell (Estado A) unit,
               h = processar_deposito float_de_str \/
               h = processar_saque float_de_str \/
               h = exibir_extrato formato_2f ->
               bind_s h (fun _ => ret_s true)
                      (com_console e resto [menu_text]) = (r, e1) ->
               banco_vazio e1 /\ relogio e1 = relogio e /\
               match r with
               | Ok true =>
                   (length (entrada e1) < length (opcao :: resto))%nat
               | Ok false => True
               | Levanta x => desfecho_de_main (Levanta x)
               end).
    { intros h Hh Eh.
      destruct (manipulador_em_banco_vazio h _ Hh Hv')
        as (Hv1 & Hr1 & [[Ef El]|[Ef _]]);
        unfold bind_s in Eh;
        destruct (h (com_console e resto [menu_text])) as [r0 e0];
        cbn [fst snd] in *; subst r0; cbn [ret_s] in Eh;
        injection Eh as <- <-.
      - repeat split; try apply Hv1; try exact Hr1.
        cbn [com_console entrada length] in *. lia.
      - repeat split; try apply Hv1; try exact Hr1. right. now left. }
    destruct (String.eqb opcao "d");
      [exact (Hh _ (or_introl eq_refl) E)|].
    destruct (String.eqb opcao "s");
      [exact (Hh _ (or_intror (or_introl eq_refl)) E)|].
    destruct (String.eqb opcao "e");
      [exact (Hh _ (or_intror (or_intror eq_refl)) E)|].
    destruct (String.eqb opcao "nu").
    { injection E as <- <-. split; [exact Hv'|]. split; [reflexivity|].
      right. right. now left. }
    destruct (String.eqb opcao "nc").
    { injection E as <- <-. split; [exact Hv'|]. split; [reflexivity|].
      right. right. right. now left. }
    destruct (String.eqb opcao "lc").
    { injection E as <- <-. split; [exact Hv'|]. split; [reflexivity|].
      right. right. right. now right. }
    destruct (String.eqb opcao "q").
    { injection E as <- <-. split; [exact Hv'|]. split; [reflexivity|].
      exact I. }
    unfold bind_s, imprimir, ret_s in E. injection E as <- <-.
    unfold banco_vazio.
    cbn [com_console entrada length main_clientes main_contas objetos
         leituras relogio].
    repeat split; try assumption. lia.
Qed.

Lemma main_laco_em_banco_vazio (n : nat) :
  forall e : Estado A,
    banco_vazio e ->
    banco_vazio (snd (main_laco float_de_str formato_2f n e)) /\
    relogio (snd (main_laco float_de_str formato_2f n e)) = relogio e /\
    ((length (entrada e) < n)%nat ->
     exists x : Resultado unit,
       fst (main_laco float_de_str formato_2f n e) = Some x /\
       desfecho_de_main x).
Proof.
  induction n as [|n IH]; intros e Hv; cbn [main_laco].
  - repeat split; try apply Hv. intros Hn. lia.
  - destruct (main_iteracao_em_banco_vazio e Hv) as (Hv1 & Hr1 & Hf).
    destruct (main_iteracao float_de_str formato_2f e) as [[[|]|x] e1];
      cbn [fst snd] in *.
    + destruct (IH e1 Hv1) as (Hv2 & Hr2 & Ht).
      repeat split; try apply Hv2; [congruence|].
      intros Hn. apply Ht. lia.
    + repeat split; try apply Hv1; [exact Hr1|].
      intros _. exists (Ok tt). split; [reflexivity|now left].
    + repeat split; try apply Hv1; [exact Hr1|].
      intros _. exists (Levanta x). split; [reflexivity|exact Hf].
Qed.

(** X16. No run of [main] ever has a client or an account.  Whatever is
    typed, after any number of iterations the lists of clients and of
    accounts and the store are empty and the clock was never read; and with
    more iterations allowed than there are input lines the run has ended,
    in one of five ways: normally (after "q"), with [EOFError] when the
    input ran out, or with [NameError] on one of the three functions the
    module does not define.  In particular no deposit or withdrawal is ever
    applied and no amount is ever converted ([ValueError] cannot occur). *)
Theorem main_nunca_tem_contas (n : nat) (linhas : list string)
        (clock : nat -> string) :
  banco_vazio (snd (main float_de_str formato_2f n linhas clock)) /\
  ((length linhas < n)%nat ->
   exists x : Resultado unit,
     fst (main float_de_str formato_2f n linhas clock) = Some x /\
     desfecho_de_main x).
Proof.
  unfold main.
  destruct (main_laco_em_banco_vazio n
              (mkEstado [] [] [] linhas [] clock O)) as (Hv & _ & Ht).
  - repeat split.
  - split; [exact Hv | exact Ht].
Qed.

End Execucao.

(** * More about [desadio.py] *)

Section Iteracoes.
Context {A : Type} `{PyNum A}.
Variable float_de_str : string -> option A.
Variable formato_2f : A -> string.
Local Open Scope list_scope.
Local Open Scope py_scope.

Lemma desadio_depositar_casos (saldo : A) (extrato : string)
      (c : desadio.Console) :
  match desadio.depositar float_de_str formato_2f saldo extrato c with
  | (Ok (s', x'), c') =>
      (exists linha, desadio.entrada c = linha :: desadio.entrada c') /\
      ((s', x') = (saldo, extrato) \/
       exists v : A,
         (v >? de_int 0) = true /\ s' = saldo + v /\
         x' = (extrato ++ linha_deposito formato_2f v)%string)
  | (Levanta x, c') =>
      falha_de_leitura float_de_str (desadio.entrada c) x
  end.
Proof.
  unfold desadio.depositar, bind_s, desadio.input, desadio.float_,
    desadio.print, ret_s, levantar.
  destruct (desadio.entrada c) as [|linha resto] eqn:He; [now left|].
  destruct (float_de_str linha) as [v|] eqn:Ef.
  - destruct (v >? de_int 0) eqn:Ev; cbn [desadio.entrada];
      (split; [now exists linha|]).
    + right. exists v. repeat split. exact Ev.
    + now left.
  - right. exists linha. repeat split; [now left | exact Ef].
Qed.

Lemma desadio_sacar_casos (saldo : A) (extrato : string) (n : nat)
      (limite : A) (L : nat) (c : desadio.Console) :
  match desadio.sacar float_de_str formato_2f saldo extrato n limite L c with
  | (Ok (s', x', n'), c') =>
      (exists linha, desadio.entrada c = linha :: desadio.entrada c') /\
      ((s', x', n') = (saldo, extrato, n) \/
       exists v : A,
         (v >? de_int 0) = true /\ (v >? saldo) = false /\
         (v >? limite) = false /\ (n < L)%nat /\
         s' = saldo - v /\
         x' = (extrato ++ linha_saque formato_2f v)%string /\
         n' = S n)
  | (Levanta x, c') =>
      falha_de_leitura float_de_str (desadio.entrada c) x
  end.
Proof.
  unfold desadio.sacar, bind_s, desadio.input, desadio.float_,
    desadio.print, ret_s, levantar.
  destruct (desadio.entrada c) as [|linha resto] eqn:He; [now left|].
  destruct (float_de_str linha) as [v|] eqn:Ef.
  - destruct (v >? saldo) eqn:Es; cbn [desadio.entrada];
      [split; [now exists linha | now left]|].
    destruct (v >? limite) eqn:El; cbn [desadio.entrada];
      [split; [now exists linha | now left]|].
    destruct (L <=? n)%nat eqn:En; cbn [desadio.entrada];
      [split; [now exists linha | now left]|].
    destruct (v >? de_int 0) eqn:Ev; cbn [desadio.entrada];
      (split; [now exists linha|]); [|now left].
    right. exists v. apply Nat.leb_gt in En. repeat split; assumption.
  - right. exists linha. repeat split; [now left | exact Ef].
Qed.

Lemma falha_de_leitura_cons (linha : string) (resto : list string)
      (x : Excecao) :
  falha_de_leitura float_de_str resto x ->
  falha_de_leitura float_de_str (linha :: resto) x.
Proof.
  intros [E|(s & E & Hi & Hf)]; [now left|].
  right. exists s. repeat split; [exact E | now right | exact Hf].
Qed.

(** One iteration of [desadio.main], by its result. *)
Lemma desadio_iteracao_casos (l : desadio.Locais A) (c : desadio.Console) :
  match desadio.main_iteracao float_de_str formato_2f l c with
  | (Ok (Some l'), c') =>
      passo_de_main formato_2f l l' /\
      (length (desadio.entrada c') < length (desadio.entrada c))%nat /\
      (forall s, In s (desadio.entrada c') -> In s (desadio.entrada c))
  | (Ok None, c') => True
  | (Levanta x, c') => falha_de_leitura float_de_str (desadio.entrada c) x
  end.
Proof.
  unfold desadio.main_iteracao, desadio.exibir_menu, bind_s at 1,
    desadio.input.
  destruct (desadio.entrada c) as [|opcao resto] eqn:He; [now left|].
  destruct (String.eqb opcao "1").
  { unfold bind_s.
    pose proof (desadio_depositar_casos (desadio.saldo l)
                  (desadio.extrato l)
                  (desadio.mkConsole resto
                     (desadio.saida c ++ [desadio.menu]))) as Hd.
    destruct (desadio.depositar _ _ _ _ _) as [[[s' x']|x] c'];
      cbn [desadio.entrada] in Hd; unfold ret_s.
    - destruct Hd as ((linha & Hr) & Hd). rewrite Hr.
      split; [|split; [cbn; lia | intros s Hs; right; now right]].
      unfold passo_de_main. cbn [fst snd desadio.saldo desadio.limite
        desadio.extrato desadio.numero_saques desadio.LIMITE_SAQUES].
      split; [reflexivity|]. split; [reflexivity|].
      destruct Hd as [Hd|(v & Hv & Hs & Hx)].
      + left. injection Hd as -> ->. now destruct l.
      + right. left. exists v. repeat split; assumption.
    - now apply falha_de_leitura_cons. }
  destruct (String.eqb opcao "2").
  { unfold bind_s.
    pose proof (desadio_sacar_casos (desadio.saldo l) (desadio.extrato l)
                  (desadio.numero_saques l) (desadio.limite l)
                  (desadio.LIMITE_SAQUES l)
                  (desadio.mkConsole resto
                     (desadio.saida c ++ [desadio.menu]))) as Hd.
    destruct (desadio.sacar _ _ _ _ _ _ _ _) as [[[[s' x'] n']|x] c'];
      cbn [desadio.entrada] in Hd; unfold ret_s.
    - destruct Hd as ((linha & Hr) & Hd). rewrite Hr.
      split; [|split; [cbn; lia | intros s Hs; right; now right]].
      unfold passo_de_main. cbn [fst snd desadio.saldo desadio.limite
        desadio.extrato desadio.numero_saques desadio.LIMITE_SAQUES].
      split; [reflexivity|]. split; [reflexivity|].
      destruct Hd as [Hd|(v & Hv & Hs & Hl & Hn & Hs' & Hx & Hn')].
      + left. injection Hd as -> -> ->. now destruct l.
      + right. right. exists v. repeat split; assumption.
    - now apply falha_de_leitura_cons. }
  destruct (String.eqb opcao "3").
  { unfold bind_s, desadio.exibir_extrato, bind_s, desadio.print, ret_s.
    cbn [desadio.entrada].
    split; [|split; [cbn; lia | intros s Hs; now right]].
    unfold passo_de_main. repeat split. now left. }
  destruct (String.eqb opcao "0").
  { unfold bind_s, desadio.print, ret_s. exact I. }
  unfold bind_s, desadio.print, ret_s. cbn [desadio.entrada].
  split; [|split; [cbn; lia | intros s Hs; now right]].
  unfold passo_de_main. repeat split. now left.
Qed.

(** X17. One iteration of [desadio.main] that goes on does one of three
    things to the locals: nothing; an accepted deposit of some [v > 0]
    (balance plus [v], one deposit line added to [extrato], same number of
    withdrawals); or an accepted withdrawal of some [v > 0] that is not
    above the balance nor above [limite], with fewer than [LIMITE_SAQUES]
    withdrawals so far (balance minus [v], one withdrawal line added, one
    more withdrawal).  [limite] and [LIMITE_SAQUES] never change. *)
Theorem desadio_iteracao_efeito (l l' : desadio.Locais A)
        (c c' : desadio.Console) :
  desadio.main_iteracao float_de_str formato_2f l c = (Ok (Some l'), c') ->
  passo_de_main formato_2f l l'.
Proof.
  intros E. pose proof (desadio_iteracao_casos l c) as Hc.
  rewrite E in Hc. apply Hc.
Qed.

(** X18. In [desadio.main] the quota is never given back: once
    [numero_saques] has reached [LIMITE_SAQUES], no later iteration
    withdraws; it leaves the locals as they are or adds a deposit. *)
Theorem desadio_quota_esgotada (l l' : desadio.Locais A)
        (c c' : desadio.Console) :
  desadio.main_iteracao float_de_str formato_2f l c = (Ok (Some l'), c') ->
  (desadio.LIMITE_SAQUES l <= desadio.numero_saques l)%nat ->
  desadio.numero_saques l' = desadio.numero_saques l /\
  desadio.LIMITE_SAQUES l' = desadio.LIMITE_SAQUES l /\
  (desadio.saldo l' = desadio.saldo l \/
   exists v : A,
     (v >? de_int 0) = true /\
     desadio.saldo l' = desadio.saldo l + v).
Proof.
  intros E Hq. pose proof (desadio_iteracao_casos l c) as Hc.
  rewrite E in Hc.
  destruct Hc as ((_ & HL & [->|[(v & Hv & Hs & _ & Hn)|(v & _ & _ & _ & Hn & _)]]) & _).
  - repeat split. now left.
  - repeat split; [exact Hn | exact HL |]. right. now exists v.
  - lia.
Qed.

Lemma desadio_main_laco_termina (n : nat) :
  forall (l : desadio.Locais A) (c : desadio.Console),
    (length (desadio.entrada c) < n)%nat ->
    exists x : Resultado unit,
      fst (desadio.main_laco float_de_str formato_2f n l c) = Some x /\
      (x = Ok tt \/
       exists y : Excecao,
         x = Levanta y /\
         falha_de_leitura float_de_str (desadio.entrada c) y).
Proof.
  induction n as [|n IH]; intros l c Hn; [lia|]. cbn [desadio.main_laco].
  pose proof (desadio_iteracao_casos l c) as Hc.
  destruct (desadio.main_iteracao float_de_str formato_2f l c)
    as [[[l'|]|y] c'].
  - destruct Hc as (_ & Hl & Hi).
    destruct (IH l' c') as (x & Ex & Hx); [lia|].
    exists x. split; [exact Ex|].
    destruct Hx as [Hx|(y & Ey & [Hy|(s & Es & Hs & Hf)])].
    + now left.
    + right. exists y. split; [exact Ey | now left].
    + right. exists y. split; [exact Ey|]. right. exists s.
      repeat split; auto.
  - exists (Ok tt). split; [reflexivity | now left].
  - exists (Levanta y). split; [reflexivity|]. right. now exists y.
Qed.

(** X19. Every run of [desadio.main] ends, in one of three ways:
    normally (after "0"), with [EOFError] when the input ran out, or with
    [ValueError] on an input line that is not a number.  With more
    iterations allowed than there are input lines the run is over. *)
Theorem desadio_main_termina (n : nat) (linhas : list string) :
  (length linhas < n)%nat ->
  exists x : Resultado unit,
    fst (desadio.main float_de_str formato_2f n linhas) = Some x /\
    (x = Ok tt \/
     exists y : Excecao,
       x = Levanta y /\ falha_de_leitura float_de_str linhas y).
Proof.
  intros Hn. unfold desadio.main.
  apply (desadio_main_laco_termina n desadio.locais_iniciais
           (desadio.mkConsole linhas [])).
  exact Hn.
Qed.

End Iteracoes.

Section Locais.
Context {A : Type} `{PyNumOrdenado A}.
Variable float_de_str : string -> option A.
Variable formato_2f : A -> string.
Local Open Scope py_scope.

(** X20. What the locals of [desadio.main] satisfy at the top of every
    iteration, whatever was typed before: [limite] is 500,
    [LIMITE_SAQUES] is 3, at most three withdrawals were made, and the
    balance is not negative. *)
Theorem desadio_invariantes (l : desadio.Locais A) :
  locais_alcancaveis float_de_str formato_2f l ->
  desadio.limite l = de_int 500 /\
  desadio.LIMITE_SAQUES l = 3%nat /\
  (desadio.numero_saques l <= 3)%nat /\
  nao_negativo (desadio.saldo l).
Proof.
  induction 1 as [|l l' c c' _ IH E].
  - cbn. repeat split; [lia | apply zero_nao_negativo].
  - destruct IH as (Hl & HL & Hn & Hs).
    pose proof (desadio_iteracao_casos float_de_str formato_2f l c) as Hc.
    rewrite E in Hc.
    destruct Hc as ((El & EL & Hp) & _).
    rewrite El, EL.
    destruct Hp as [->|[(v & Hv & Es & _ & En)
                       |(v & Hv & Hg & _ & Hq & Es & _ & En)]].
    + repeat split; assumption.
    + rewrite Es, En. repeat split; try assumption.
      apply soma_nao_negativa; [exact Hs|].
      apply (maior_que_nao_negativo (de_int 0) v);
        [apply zero_nao_negativo | exact Hv].
    + rewrite Es, En. repeat split; try assumption; [lia|].
      apply subtrai_nao_negativa; [exact Hs | | exact Hg].
      apply (maior_que_nao_negativo (de_int 0) v);
        [apply zero_nao_negativo | exact Hv].
Qed.

End Locais.

(** * The further theorems at concrete inputs *)

Lemma saldo_reproduz_historico_witness :
  saldo (conta (registrar_todas [Deposito 1000; Saque 100; Saque 600]
                                corrente_nova)) =
    reproduzir
      (transacoes
         (historico
            (conta (registrar_todas [Deposito 1000; Saque 100; Saque 600]
                                    corrente_nova))))
      0.
Proof.
  apply (saldo_reproduz_historico corrente_nova
           [Deposito 1000; Saque 100; Saque 600]).
  reflexivity.
Defined.

Lemma quota_esgotada_para_sempre_witness :
  saques_bem_sucedidos [Saque 1; Deposito 10; Saque 1] corrente_esgotada
    = O.
Proof.
  apply (quota_esgotada_para_sempre [Saque 1; Deposito 10; Saque 1]
           corrente_esgotada corrente_padrao).
  - reflexivity.
  - vm_compute. lia.
Defined.

Lemma invariantes_da_conta_witness :
  agencia (conta (snd (registrar (Deposito 10) corrente_nova)))
    = "0001"%string.
Proof.
  apply (invariantes_da_conta (snd (registrar (Deposito 10) corrente_nova))).
  apply alc_registrar. apply alc_ContaCorrente.
Defined.

Lemma saldo_nan_e_para_sempre_witness :
  fst (depositar PrimFloat.nan conta_float_0) = true.
Proof.
  apply (proj1 saldo_nan_e_para_sempre conta_float_0 PrimFloat.nan).
  reflexivity.
Defined.

Lemma cpf_desconhecido_witness :
  fst (processar_deposito le_50 (banco_exemplo ["999"%string])) = Ok tt.
Proof.
  rewrite (proj1 (cpf_desconhecido le_50 sem_formato
                    (banco_exemplo ["999"%string]) "999" []
                    eq_refl eq_refl)).
  reflexivity.
Defined.

Lemma valor_ilegivel_witness :
  fst (processar_saque le_50 (banco_exemplo ["222"%string; "dez"%string]))
    = Levanta (ValueError "dez").
Proof.
  rewrite (proj2 (valor_ilegivel le_50
                    (banco_exemplo ["222"%string; "dez"%string])
                    "222" "dez" [] cliente_bia eq_refl eq_refl eq_refl)).
  reflexivity.
Defined.

Lemma cliente_sem_conta_witness :
  fst (processar_deposito le_50
         (banco_exemplo ["222"%string; "50"%string])) = Ok tt.
Proof.
  rewrite (proj1 (cliente_sem_conta le_50
                    (banco_exemplo ["222"%string; "50"%string])
                    "222" "50" [] cliente_bia 50
                    eq_refl eq_refl eq_refl eq_refl)).
  reflexivity.
Defined.

Lemma so_a_primeira_conta_witness :
  nth_error
    (objetos (snd (processar_saque le_50
                     (banco_exemplo ["111"%string; "50"%string])))) 0
  = Some (ContaCorrente_init 1 O limite_padrao limite_saques_padrao).
Proof.
  destruct (so_a_primeira_conta le_50
              (banco_exemplo ["111"%string; "50"%string])
              "111" "50" [] cliente_ana 50 1 [0%nat] conta_da_ana
              eq_refl eq_refl eq_refl eq_refl eq_refl)
    as (_ & _ & Hs).
  destruct Hs as (_ & _ & _ & _ & _ & _ & _ & _ & Hf).
  rewrite (Hf 0%nat) by discriminate. reflexivity.
Defined.

Lemma extrato_lista_o_historico_witness :
  saida (snd (exibir_extrato sem_formato (banco_exemplo ["111"%string]))) =
    [prompt_cpf;
     (nl ++ "================ EXTRATO ================")%string;
     "Deposito: R$  em 01-01-2024 00:00:00"%string;
     (nl ++ "Saldo: R$ ")%string;
     "=========================================="%string].
Proof.
  rewrite (extrato_lista_o_historico sem_formato
             (banco_exemplo ["111"%string]) "111" [] cliente_ana 1 [0%nat]
             conta_da_ana eq_refl eq_refl eq_refl eq_refl).
  reflexivity.
Defined.

Lemma desadio_iteracao_efeito_witness :
  passo_de_main sem_formato desadio.locais_iniciais locais_com_50.
Proof.
  apply (desadio_iteracao_efeito le_50 sem_formato desadio.locais_iniciais
           locais_com_50
           (desadio.mkConsole ["1"%string; "50"%string] [])
           (snd (desadio.main_iteracao le_50 sem_formato
                   desadio.locais_iniciais
                   (desadio.mkConsole ["1"%string; "50"%string] [])))).
  reflexivity.
Defined.

Lemma desadio_quota_esgotada_witness :
  desadio.numero_saques locais_esgotados = 3%nat.
Proof.
  symmetry.
  apply (desadio_quota_esgotada le_50 sem_formato locais_esgotados
           locais_esgotados
           (desadio.mkConsole ["2"%string; "50"%string] [])
           (snd (desadio.main_iteracao le_50 sem_formato locais_esgotados
                   (desadio.mkConsole ["2"%string; "50"%string] [])))).
  - reflexivity.
  - cbn. lia.
Defined.

Lemma desadio_main_termina_witness :
  exists x : Resultado unit,
    fst (desadio.main le_50 sem_formato 4
                      ["1"%string; "50"%string; "0"%string]) = Some x /\
    (x = Ok tt \/
     exists y : Excecao,
       x = Levanta y /\
       falha_de_leitura le_50 ["1"%string; "50"%string; "0"%string] y).
Proof.
  apply (desadio_main_termina le_50 sem_formato 4
           ["1"%string; "50"%string; "0"%string]).
  cbn. lia.
Defined.

Lemma desadio_invariantes_witness :
  nao_negativo (desadio.saldo locais_com_50).
Proof.
  apply (desadio_invariantes le_50 sem_formato locais_com_50).
  apply (alc_iteracao le_50 sem_formato desadio.locais_iniciais
           locais_com_50
           (desadio.mkConsole ["1"%string; "50"%string] [])
           (snd (desadio.main_iteracao le_50 sem_formato
                   desadio.locais_iniciais
                   (desadio.mkConsole ["1"%string; "50"%string] [])))).
  - apply alc_inicio.
  - reflexivity.
Defined.

(** * The two programs side by side *)

(** X21. On [int] amounts the procedural program and the account classes
    accept the same operations and compute the same balances, although they
    test the conditions in a different order: for the same balance, ceiling,
    quota and number of withdrawals, [desadio.sacar] returns the balance
    that [ContaCorrente.sacar] leaves, and counts one more withdrawal exactly
    when [ContaCorrente.sacar] returns [True]; and [desadio.depositar]
    returns the balance that [Conta.depositar] leaves. *)
Theorem programas_concordam_em_int
        (float_de_str : string -> option Z) (formato_2f : Z -> string)
        (w : Mundo Z) (cc : Corrente Z) (v : Z) (linha extrato : string)
        (resto out : list string) :
  classe (conta w) = ClasseContaCorrente cc ->
  float_de_str linha = Some v ->
  (exists x' : string,
     fst (desadio.sacar float_de_str formato_2f (saldo (conta w)) extrato
            (conta_saques (transacoes (historico (conta w))))
            (limite cc) (limite_saques cc)
            (desadio.mkConsole (linha :: resto) out)) =
       Ok (saldo (conta (snd (sacar v w))), x',
           if fst (sacar v w)
           then S (conta_saques (transacoes (historico (conta w))))
           else conta_saques (transacoes (historico (conta w))))) /\
  (exists x' : string,
     fst (desadio.depositar float_de_str formato_2f (saldo (conta w)) extrato
            (desadio.mkConsole (linha :: resto) out)) =
       Ok (saldo (conta (snd (depositar v w))), x')).
Proof.
  intros Hc Hf. split.
  - unfold desadio.sacar, bind_s, desadio.input, desadio.float_,
      desadio.print, ret_s.
    cbn [desadio.entrada desadio.saida]. rewrite Hf.
    unfold sacar. rewrite Hc, ContaCorrente_sacar_casos, Conta_sacar_casos.
    cbn [maior menor_igual subtrai de_int PyNum_int].
    rewrite !Z.gtb_ltb.
    destruct (Z.ltb_spec (limite cc) v) as [L|L];
      destruct (Z.ltb_spec (saldo (conta w)) v) as [S0|S0];
      destruct (limite_saques cc
                <=? conta_saques (transacoes (historico (conta w))))%nat;
      destruct (Z.ltb_spec 0 v) as [P|P];
      destruct (Z.leb_spec v 0) as [N|N];
      try lia; cbn [fst snd recusa aceita conta saldo]; eexists;
      reflexivity.
  - unfold desadio.depositar, bind_s, desadio.input, desadio.float_,
      desadio.print, ret_s.
    cbn [desadio.entrada desadio.saida]. rewrite Hf.
    unfold depositar. rewrite Conta_depositar_casos.
    cbn [maior menor_igual soma de_int PyNum_int].
    rewrite !Z.gtb_ltb.
    destruct (Z.ltb_spec 0 v) as [P|P];
      destruct (Z.leb_spec v 0) as [N|N];
      try lia; cbn [fst snd recusa aceita conta saldo]; eexists;
      reflexivity.
Qed.

Lemma programas_concordam_em_int_witness :
  exists x' : string,
    fst (desadio.sacar le_50 sem_formato 0 EmptyString 0 500 3
           (desadio.mkConsole ["50"%string] [])) =
      Ok (0, x', O).
Proof.
  apply (proj1 (programas_concordam_em_int le_50 sem_formato corrente_nova
                  corrente_padrao 50 "50" EmptyString [] []
                  eq_refl eq_refl)).
Defined.

(** * A withdrawal without funds *)

(** C1, as the code has it.  The amount tests of [Conta.sacar] and
    [Conta.depositar] are [valor <= 0] and [valor > saldo], which are both
    false of a NaN.  On a new [ContaCorrente] with the default limits and
    [float] amounts, [sacar(nan)] returns [True] and leaves a NaN balance,
    of which [0 <= saldo] is false; [sacar(500)] then returns [True] on an
    account nothing was ever deposited in, and [depositar(nan)] returns
    [True] as well.  The procedural program tests [valor > 0] instead and
    refuses the same amount in both [depositar] and [sacar]. *)
Theorem saque_sem_fundos :
  fst (sacar PrimFloat.nan corrente_float_nova) = true /\
  PrimFloat.is_nan (saldo (conta corrente_float_nan)) = true /\
  menor_igual (de_int 0) (saldo (conta corrente_float_nan)) = false /\
  fst (sacar (de_int 500) corrente_float_nan) = true /\
  fst (depositar PrimFloat.nan corrente_float_nova) = true /\
  desadio.depositar le_nan sem_formato_float PrimFloat.zero EmptyString
                    (desadio.mkConsole ["nan"%string] []) =
    (Ok (PrimFloat.zero, EmptyString),
     desadio.mkConsole []
       ["Informe o valor do depósito: "%string;
        desadio.msg_valor_invalido]) /\
  desadio.sacar le_nan sem_formato_float PrimFloat.zero EmptyString O
                (de_int 500) 3%nat
                (desadio.mkConsole ["nan"%string] []) =
    (Ok (PrimFloat.zero, EmptyString, O),
     desadio.mkConsole []
       ["Informe o valor do saque: "%string; desadio.msg_valor_invalido]).
Proof.
  repeat split; vm_compute; reflexivity.
Qed.
